(** * A shallow embedding of the YouTube transcript pipeline

    The development follows the Python sources:
    - [utils/youtube.py]    : [extract_video_id], [sanitize_filename],
                              [download_video], [fetch_transcript_text];
    - [utils/llm_client.py] : [_stable_json_dumps], [_crc32_u32],
                              [_build_prompt_cache_key], [_extract_passage],
                              [invoke_llm];
    - [utils/prompt_loader.py], [utils/agents.py] : prompt loading and agents;
    - [app/main.py]         : [extract_transcript_passage],
                              [build_output_paths], [main].

    A Python [str] is a sequence of Unicode code points: it is modelled as a
    list of integers, so that [len], slicing and indexing count code points as
    Python does.  Exceptions are modelled by a sum type, the file system and
    the LLM provider by an explicit world that is threaded through the code. *)

From Stdlib Require Import ZArith Lia List Bool Ascii String DecimalString Sorted.
From stdpp Require Import base option list gmap.

Set Warnings "-register-all".
Local Open Scope Z_scope.

(** ** Python strings *)

Module Py.

(** A [str]: the list of the code points ([ord]) of its characters. *)
Definition str := list Z.

(** Literals are written through Rocq strings of ASCII characters. *)
Definition of_string (s : string) : str :=
  map (fun a => Z.of_N (N_of_ascii a)) (list_ascii_of_string s).

Definition len (s : str) : Z := Z.of_nat (length s).

Definition SPACE : Z := 32.
Definition DASH : Z := 45.
Definition UNDERSCORE : Z := 95.
Definition SLASH : Z := 47.
Definition NEWLINE : Z := 10.

(** [str.isspace] for one character, as CPython's [_PyUnicode_IsWhitespace]:
    the characters of bidirectional type WS, B or S, or of category Zs. *)
Definition isspace (c : Z) : bool :=
  ((9 <=? c) && (c <=? 13)) || ((28 <=? c) && (c <=? 32))
  || (c =? 133) || (c =? 160) || (c =? 5760)
  || ((8192 <=? c) && (c <=? 8202))
  || (c =? 8232) || (c =? 8233) || (c =? 8239) || (c =? 8287) || (c =? 12288).

(** [sep.join(parts)]. *)
Fixpoint join (sep : str) (parts : list str) : str :=
  match parts with
  | [] => []
  | [p] => p
  | p :: ps => p ++ sep ++ join sep ps
  end.

(** [s.split()] without arguments: the maximal runs of characters that are
    not whitespace, in order.  [cur] is the run being scanned. *)
Fixpoint split_go (cur : str) (s : str) : list str :=
  match s with
  | [] => match cur with [] => [] | _ => [cur] end
  | c :: s' =>
      if isspace c
      then match cur with [] => split_go [] s' | _ => cur :: split_go [] s' end
      else split_go (cur ++ [c]) s'
  end.

Definition split (s : str) : list str := split_go [] s.

(** [s.strip()] without arguments. *)
Fixpoint lstrip_ws (s : str) : str :=
  match s with
  | c :: s' => if isspace c then lstrip_ws s' else s
  | [] => []
  end.

Definition strip (s : str) : str := rev (lstrip_ws (rev (lstrip_ws s))).

(** [s.lstrip(chars)] for a one-character [chars]. *)
Fixpoint lstrip_char (ch : Z) (s : str) : str :=
  match s with
  | c :: s' => if c =? ch then lstrip_char ch s' else s
  | [] => []
  end.

(** [s[:n]]: a negative bound counts from the end, and the bounds are
    clipped to the string. *)
Definition slice_to (s : str) (n : Z) : str :=
  firstn (Z.to_nat (if n <? 0 then len s + n else n)) s.

(** Index of the last occurrence of the character [ch]. *)
Fixpoint rfind_char (ch : Z) (s : str) : option nat :=
  match s with
  | [] => None
  | c :: s' =>
      match rfind_char ch s' with
      | Some i => Some (S i)
      | None => if c =? ch then Some O else None
      end
  end.

(** [s.rsplit(sep, 1)] for a one-character separator: the string is cut at
    the last separator, and is returned whole when there is none. *)
Definition rsplit1 (ch : Z) (s : str) : list str :=
  match rfind_char ch s with
  | None => [s]
  | Some i => [firstn i s; skipn (S i) s]
  end.

(** Truthiness of a string: [bool(s)]. *)
Definition truthy (s : str) : bool :=
  match s with [] => false | _ => true end.

(** [a == b] on strings. *)
Definition eqb (a b : str) : bool := bool_decide (a = b).

(** [a < b] on strings: lexicographic on code points. *)
Fixpoint ltb (a b : str) : bool :=
  match a, b with
  | _, [] => false
  | [], _ :: _ => true
  | x :: a', y :: b' => (x <? y) || ((x =? y) && ltb a' b')
  end.

(** [ch in s] for a character, and [s.find(ch)]. *)
Definition contains (ch : Z) (s : str) : bool := existsb (Z.eqb ch) s.

Fixpoint find_char (ch : Z) (s : str) : option nat :=
  match s with
  | [] => None
  | c :: s' => if c =? ch then Some O else option_map S (find_char ch s')
  end.

(** [s.partition(ch)] and [s.rpartition(ch)]: the separator slot is kept as
    a flag telling whether it was found. *)
Definition partition (ch : Z) (s : str) : str * bool * str :=
  match find_char ch s with
  | Some i => (firstn i s, true, skipn (S i) s)
  | None => (s, false, [])
  end.

Definition rpartition (ch : Z) (s : str) : str * bool * str :=
  match rfind_char ch s with
  | Some i => (firstn i s, true, skipn (S i) s)
  | None => ([], false, s)
  end.

(** [s.split(ch)] with an explicit one-character separator: empty pieces
    are kept. *)
Fixpoint split_on (ch : Z) (s : str) : list str :=
  match s with
  | [] => [[]]
  | c :: s' =>
      if c =? ch then [] :: split_on ch s'
      else match split_on ch s' with
           | p :: ps => (c :: p) :: ps
           | [] => [[c]]
           end
  end.

(** [s.replace(a, b)] for single characters. *)
Definition replace_char (a b : Z) (s : str) : str :=
  map (fun c => if c =? a then b else c) s.

Definition is_ascii (c : Z) : bool := (0 <=? c) && (c <? 128).
Definition isascii (s : str) : bool := forallb is_ascii s.

Definition ascii_isdigit (c : Z) : bool := (48 <=? c) && (c <=? 57).
Definition ascii_isupper (c : Z) : bool := (65 <=? c) && (c <=? 90).
Definition ascii_islower (c : Z) : bool := (97 <=? c) && (c <=? 122).
Definition ascii_isalpha (c : Z) : bool := ascii_isupper c || ascii_islower c.
Definition ascii_lower (c : Z) : Z := if ascii_isupper c then c + 32 else c.

(** What the model takes from the Unicode character database and from the
    codecs of the interpreter: the parts of [str.isalnum], [str.lower] and
    of percent-decoding that lie outside ASCII. *)
Record UnicodeData := {
  uni_isalnum : Z -> bool;
  uni_lower : str -> str;
  uni_unquote : str -> str;
}.

(** [ch.isalnum()]: digits and letters in ASCII, the database elsewhere. *)
Definition isalnum (U : UnicodeData) (c : Z) : bool :=
  if is_ascii c then ascii_isdigit c || ascii_isalpha c else uni_isalnum U c.

(** [s.lower()]. *)
Definition lower (U : UnicodeData) (s : str) : str :=
  if isascii s then map ascii_lower s else uni_lower U s.

(** [str(n)] for an integer, as in an f-string. *)
Definition repr_int (n : Z) : str :=
  of_string (NilZero.string_of_int (Z.to_int n)).

End Py.

Notation "'py' s" := (Py.of_string s%string) (at level 9, s at level 0, only parsing).

(** ** Exceptions *)

Inductive exn :=
| ValueError (msg : Py.str)
| RuntimeError (msg : Py.str)
| FileNotFoundError (msg : Py.str)
| IndexError
| KeyError (key : Py.str)
| TypeError
| UnicodeEncodeError
| ProviderError (msg : Py.str).

(** The result of an expression that may raise. *)
Inductive Exc (A : Type) :=
| Ok (a : A)
| Raise (e : exn).
Arguments Ok {A} a.
Arguments Raise {A} e.

Definition exc_bind {A B} (x : Exc A) (k : A -> Exc B) : Exc B :=
  match x with Ok a => k a | Raise e => Raise e end.

Declare Scope exc_scope.
Delimit Scope exc_scope with exc.
Notation "x <- e ;; k" := (exc_bind e (fun x => k))
  (at level 100, e at next level, right associativity) : exc_scope.

(** ** Python values and dictionaries *)

(** The values a payload holds ([Dict[str, Any]] restricted to what
    [json.dumps] serialises without a custom encoder; floats are left out). *)
Inductive value :=
| VNone
| VBool (b : bool)
| VInt (n : Z)
| VStr (s : Py.str)
| VList (l : list value)
| VDict (d : list (Py.str * value)).

(** A dictionary with string keys, in insertion order. *)
Definition dict (V : Type) := list (Py.str * V).

(** [d.get(key)]. *)
Fixpoint dict_get {V} (key : Py.str) (d : dict V) : option V :=
  match d with
  | [] => None
  | (k, v) :: d' => if Py.eqb k key then Some v else dict_get key d'
  end.

(** [key in d]. *)
Definition dict_mem {V} (key : Py.str) (d : dict V) : bool :=
  match dict_get key d with Some _ => true | None => false end.

(** ** The standard library: [json], [zlib], UTF-8 *)

Module Json.

Definition hex_digit (n : Z) : Z := if n <? 10 then 48 + n else 87 + n.

(** ['\\u{0:04x}'.format(n)] for [n < 0x10000]. *)
Definition u_escape (n : Z) : Py.str :=
  [92; 117; hex_digit ((n / 4096) mod 16); hex_digit ((n / 256) mod 16);
   hex_digit ((n / 16) mod 16); hex_digit (n mod 16)].

(** The replacement [json.encoder] makes for one character when
    [ensure_ascii] holds: the characters from space to tilde stand for
    themselves, except the quote and the backslash. *)
Definition escape_char (c : Z) : Py.str :=
  if c =? 92 then [92; 92]
  else if c =? 34 then [92; 34]
  else if c =? 8 then py "\b"
  else if c =? 12 then py "\f"
  else if c =? 10 then py "\n"
  else if c =? 13 then py "\r"
  else if c =? 9 then py "\t"
  else if (32 <=? c) && (c <=? 126) then [c]
  else if c <? 65536 then u_escape c
  else
    let n := c - 65536 in
    u_escape (Z.lor 55296 (Z.land (Z.shiftr n 10) 1023))
    ++ u_escape (Z.lor 56320 (Z.land n 1023)).

(** [encode_basestring_ascii(s)]. *)
Definition encode_basestring_ascii (s : Py.str) : Py.str :=
  [34] ++ flat_map escape_char s ++ [34].

(** Stable insertion of an item before the first item whose key is not
    smaller, and the sort it gives: [sorted(dct.items())] on distinct keys. *)
Fixpoint insert_item {V} (kv : Py.str * V) (l : list (Py.str * V)) : list (Py.str * V) :=
  match l with
  | [] => [kv]
  | h :: t =>
      if Py.ltb (fst h) (fst kv) then h :: insert_item kv t else kv :: l
  end.

Definition sort_items {V} (l : list (Py.str * V)) : list (Py.str * V) :=
  foldr insert_item [] l.

(** [json.dumps(v, ensure_ascii=True, separators=(",", ":"), sort_keys=True)].
    The members of an object are rendered and then ordered by key, which is
    the order in which the encoder emits them. *)
Fixpoint dumps (v : value) : Py.str :=
  match v with
  | VNone => py "null"
  | VBool true => py "true"
  | VBool false => py "false"
  | VInt n => Py.repr_int n
  | VStr s => encode_basestring_ascii s
  | VList l => py "[" ++ Py.join (py ",") (map dumps l) ++ py "]"
  | VDict d =>
      py "{"
      ++ Py.join (py ",")
           (map (fun kv => encode_basestring_ascii (fst kv) ++ py ":" ++ snd kv)
              (sort_items (map (fun kv => match kv with (k, x) => (k, dumps x) end) d)))
      ++ py "}"
  end.

End Json.

Module Codecs.

(** [ch.encode("utf-8")] for one character; a surrogate cannot be encoded. *)
Definition utf8_encode_char (c : Z) : Exc (list Z) :=
  if c <? 128 then Ok [c]
  else if c <? 2048 then
    Ok [Z.lor 192 (Z.shiftr c 6); Z.lor 128 (Z.land c 63)]
  else if (55296 <=? c) && (c <=? 57343) then Raise UnicodeEncodeError
  else if c <? 65536 then
    Ok [Z.lor 224 (Z.shiftr c 12); Z.lor 128 (Z.land (Z.shiftr c 6) 63);
        Z.lor 128 (Z.land c 63)]
  else
    Ok [Z.lor 240 (Z.shiftr c 18); Z.lor 128 (Z.land (Z.shiftr c 12) 63);
        Z.lor 128 (Z.land (Z.shiftr c 6) 63); Z.lor 128 (Z.land c 63)].

(** [text.encode("utf-8")]. *)
Fixpoint utf8_encode (s : Py.str) : Exc (list Z) :=
  match s with
  | [] => Ok []
  | c :: s' =>
      match utf8_encode_char c, utf8_encode s' with
      | Ok b, Ok bs => Ok (b ++ bs)
      | Raise e, _ => Raise e
      | _, Raise e => Raise e
      end
  end.

End Codecs.

Module Zlib.

(** One bit of the reflected CRC-32 division (polynomial 0xEDB88320). *)
Definition crc32_step_bit (c : Z) : Z :=
  if Z.testbit c 0 then Z.lxor (Z.shiftr c 1) 3988292384 else Z.shiftr c 1.

Definition crc32_byte (crc : Z) (b : Z) : Z :=
  Nat.iter 8 crc32_step_bit (Z.lxor crc b).

(** [zlib.crc32(data)]. *)
Definition crc32 (data : list Z) : Z :=
  Z.lxor (fold_left crc32_byte data 4294967295) 4294967295.

End Zlib.

(** ** [urllib.parse] *)

(** A model of [urlparse] and [parse_qs] after CPython 3.12.  Two checks of
    the library that depend on Unicode normalisation and on the [ipaddress]
    module are taken from [UrlChecks]. *)
Module Urllib.

Record UrlChecks := {
  (** [_checknetloc] on a network location that is not ASCII *)
  netloc_nfkc_ok : Py.str -> bool;
  (** [_check_bracketed_host] on the text between brackets *)
  bracketed_host_ok : Py.str -> bool;
}.

Record ParseResult := {
  scheme : Py.str;
  netloc : Py.str;
  path : Py.str;
  params : Py.str;
  query : Py.str;
  fragment : Py.str;
}.

Definition scheme_char (c : Z) : bool :=
  Py.ascii_isalpha c || Py.ascii_isdigit c || (c =? 43) || (c =? 45) || (c =? 46).

Definition uses_params : list Py.str :=
  [ []; py "ftp"; py "hdl"; py "prospero"; py "http"; py "imap"; py "https";
    py "shttp"; py "rtsp"; py "rtspu"; py "sip"; py "sips"; py "mms";
    py "sftp"; py "tel" ].

(** [url.lstrip(_WHATWG_C0_CONTROL_OR_SPACE)]. *)
Fixpoint lstrip_c0 (s : Py.str) : Py.str :=
  match s with
  | c :: s' => if (0 <=? c) && (c <=? 32) then lstrip_c0 s' else s
  | [] => []
  end.

(** The scheme, when the text before the first colon is one. *)
Definition split_scheme (url : Py.str) : Py.str * Py.str :=
  match Py.find_char 58 url, url with
  | Some (S i), c0 :: _ =>
      if Py.ascii_isalpha c0 && forallb scheme_char (firstn (S i) url)
      then (map Py.ascii_lower (firstn (S i) url), skipn (S (S i)) url)
      else ([], url)
  | _, _ => ([], url)
  end.

(** [_splitnetloc(url, 2)] on the text after the two slashes: the network
    location ends at the first of the characters [/], [?] and [#]. *)
Fixpoint netloc_end (s : Py.str) : nat :=
  match s with
  | [] => O
  | c :: s' => if (c =? 47) || (c =? 63) || (c =? 35) then O else S (netloc_end s')
  end.

Definition check_brackets (K : UrlChecks) (nl : Py.str) : Exc unit :=
  let o := Py.contains 91 nl in
  let c := Py.contains 93 nl in
  if xorb o c then Raise (ValueError (py "Invalid IPv6 URL"))
  else if o && c then
    let bracketed := fst (fst (Py.partition 93 (snd (Py.partition 91 nl)))) in
    if bracketed_host_ok K bracketed then Ok tt
    else Raise (ValueError (py "Invalid IPv6 URL"))
  else Ok tt.

Definition checknetloc (K : UrlChecks) (nl : Py.str) : Exc unit :=
  if negb (Py.truthy nl) || Py.isascii nl then Ok tt
  else if netloc_nfkc_ok K nl then Ok tt
  else Raise (ValueError (py "netloc contains invalid characters under NFKC normalization")).

(** [url.split(ch, 1)] when [ch] occurs, else the url and the default. *)
Definition cut_at (ch : Z) (url : Py.str) : Py.str * Py.str :=
  match Py.find_char ch url with
  | Some i => (firstn i url, skipn (S i) url)
  | None => (url, [])
  end.

(** [_splitparams(url)]: the parameters of the last path segment. *)
Definition splitparams (url : Py.str) : Py.str * Py.str :=
  match Py.rfind_char 47 url with
  | Some j =>
      match Py.find_char 59 (skipn j url) with
      | Some i => (firstn (j + i) url, skipn (S (j + i)) url)
      | None => (url, [])
      end
  | None =>
      match Py.find_char 59 url with
      | Some i => (firstn i url, skipn (S i) url)
      | None => (firstn (length url - 1) url, url)
      end
  end.

(** [urlparse(url)]. *)
Definition urlparse (K : UrlChecks) (url : Py.str) : Exc ParseResult :=
  let url := lstrip_c0 url in
  let url := filter (fun c => negb ((c =? 9) || (c =? 10) || (c =? 13))) url in
  let '(sch, url) := split_scheme url in
  (p <- match url with
        | 47 :: 47 :: rest =>
            let nl := firstn (netloc_end rest) rest in
            (_ <- check_brackets K nl ;; Ok (nl, skipn (netloc_end rest) rest))
        | _ => Ok ([], url)
        end ;;
   let '(nl, url) := p in
   let '(url, frag) := cut_at 35 url in
   let '(url, qry) := cut_at 63 url in
   _ <- checknetloc K nl ;;
   let '(url, prm) :=
     if existsb (Py.eqb sch) uses_params && Py.contains 59 url
     then splitparams url else (url, []) in
   Ok {| scheme := sch; netloc := nl; path := url; params := prm;
         query := qry; fragment := frag |})%exc.

(** The [hostname] property: user information and port are dropped, and
    the host is lower-cased up to a zone identifier; [None] when empty. *)
Definition hostname (U : Py.UnicodeData) (r : ParseResult) : option Py.str :=
  let hostinfo := snd (Py.rpartition 64 (netloc r)) in
  let '(_, have_open_br, bracketed) := Py.partition 91 hostinfo in
  let host :=
    if have_open_br then fst (fst (Py.partition 93 bracketed))
    else fst (fst (Py.partition 58 hostinfo)) in
  if Py.truthy host then
    let '(h, percent, zone) := Py.partition 37 host in
    Some (Py.lower U h ++ (if percent then [37] else []) ++ zone)
  else None.

(** [unquote(s)]: a string without percent sign is returned as it is. *)
Definition unquote (U : Py.UnicodeData) (s : Py.str) : Py.str :=
  if Py.contains 37 s then Py.uni_unquote U s else s.

(** [parse_qsl(qs)] with its defaults: fields without [=] and fields with
    a blank value are dropped. *)
Definition parse_qsl (U : Py.UnicodeData) (qs : Py.str) : list (Py.str * Py.str) :=
  flat_map
    (fun name_value =>
       if negb (Py.truthy name_value) then []
       else
         match Py.partition 61 name_value with
         | (name, true, val) =>
             if Py.truthy val
             then [(unquote U (Py.replace_char 43 32 name),
                    unquote U (Py.replace_char 43 32 val))]
             else []
         | (_, false, _) => []
         end)
    (Py.split_on 38 qs).

(** [parsed_result[name].append(value)], or a new list for a new name. *)
Fixpoint dict_append (name value : Py.str) (d : dict (list Py.str)) : dict (list Py.str) :=
  match d with
  | [] => [(name, [value])]
  | (k, vs) :: d' =>
      if Py.eqb k name then (k, vs ++ [value]) :: d'
      else (k, vs) :: dict_append name value d'
  end.

(** [parse_qs(qs)]. *)
Definition parse_qs (U : Py.UnicodeData) (qs : Py.str) : dict (list Py.str) :=
  fold_left (fun d nv => dict_append (fst nv) (snd nv) d) (parse_qsl U qs) [].

End Urllib.

(** What the interpreter and its library contribute beyond the model. *)
Record PyLib := {
  unicode : Py.UnicodeData;
  url_checks : Urllib.UrlChecks;
}.

(** ** [utils/youtube.py]: the pure helpers *)

(** [extract_video_id(url)]. *)
Definition extract_video_id (L : PyLib) (url : Py.str) : Exc Py.str :=
  (parsed <- Urllib.urlparse (url_checks L) url ;;
   let host := Urllib.hostname (unicode L) parsed in
   let unsupported := Raise (ValueError (py "Unsupported YouTube URL format: " ++ url)) in
   if bool_decide (host ∈ [Some (py "youtu.be")])
   then Ok (Py.lstrip_char Py.SLASH (Urllib.path parsed))
   else if bool_decide (host ∈ [Some (py "www.youtube.com"); Some (py "youtube.com");
                                 Some (py "m.youtube.com")])
   then
     let query := Urllib.parse_qs (unicode L) (Urllib.query parsed) in
     if dict_mem (py "v") query
     then match dict_get (py "v") query with
          | Some (v0 :: _) => Ok v0
          | Some [] => Raise IndexError
          | None => Raise (KeyError (py "v"))
          end
     else unsupported
   else unsupported)%exc.

(** [sanitize_filename(text)]. *)
Definition sanitize_filename (L : PyLib) (text : Py.str) : Py.str :=
  let safe :=
    Py.join []
      (map (fun ch =>
              if Py.isalnum (unicode L) ch
                 || bool_decide (ch ∈ [Py.SPACE; Py.DASH; Py.UNDERSCORE])
              then [ch] else py "_")
         text) in
  let safe := Py.join (py "_") (filter (fun part => Py.truthy part = true) (Py.split safe)) in
  if Py.truthy safe then Py.slice_to safe 120 else py "youtube_video".

(** A transcript entry as [fetch_transcript_text] reads it: its [text], or
    nothing when the key (or the attribute) is absent. *)
Record TranscriptEntry := {
  entry_text : option Py.str;
}.

(** [entry.get("text")] as a condition. *)
Definition entry_has_text (e : TranscriptEntry) : bool :=
  match entry_text e with Some s => Py.truthy s | None => false end.

(** The join of [fetch_transcript_text]: the generator runs over the
    entries whose [text] is truthy, strips the text of each (the empty
    string standing for an absent one), and the pieces are joined by one
    space; both shapes of the transcript library are joined this way. *)
Definition join_entries (entries : list TranscriptEntry) : Py.str :=
  Py.join (py " ")
    (map (fun entry => Py.strip (default [] (entry_text entry)))
       (filter (fun entry => entry_has_text entry = true) entries)).

(** ** [utils/llm_client.py]: the pure helpers *)

(** The module constants read from the environment at import time. *)
Record CacheConfig := {
  PROMPT_CACHE_SHARDS : Z;
  PROMPT_CACHE_RETENTION_SECONDS : Z;
  PROMPT_VERSION : Py.str;
}.

(** [_stable_json_dumps(payload)]. *)
Definition _stable_json_dumps (payload : dict value) : Py.str :=
  Json.dumps (VDict payload).

(** [_crc32_u32(text)]. *)
Definition _crc32_u32 (text : Py.str) : Exc Z :=
  (bytes <- Codecs.utf8_encode text ;;
   Ok (Z.land (Zlib.crc32 bytes) 4294967295))%exc.

(** [_build_prompt_cache_key(prefix_version, model, shard)]. *)
Definition _build_prompt_cache_key (prefix_version model : Py.str) (shard : Z) : Py.str :=
  prefix_version ++ py ":" ++ model ++ py ":shard-" ++ Py.repr_int shard.

(** The loop of [_extract_passage] over the remaining keys. *)
Fixpoint extract_passage_loop (keys : list Py.str) (user_payload : dict value) : option Py.str :=
  match keys with
  | [] => None
  | key :: keys' =>
      match dict_get key user_payload with
      | Some (VStr v) =>
          if Py.truthy (Py.strip v) then Some v
          else extract_passage_loop keys' user_payload
      | _ => extract_passage_loop keys' user_payload
      end
  end.

Definition passage_keys : list Py.str :=
  [py "transcript"; py "passage"; py "text"; py "content"].

(** [_extract_passage(user_payload)]. *)
Definition _extract_passage (user_payload : dict value) : Py.str :=
  match extract_passage_loop passage_keys user_payload with
  | Some v => v
  | None => _stable_json_dumps user_payload
  end.

Definition alias_map : dict Py.str :=
  [ (py "gpt40", py "gpt-4o"); (py "gpt-40", py "gpt-4o"); (py "gpt4o", py "gpt-4o");
    (py "gpt4o-mini", py "gpt-4o-mini"); (py "gpt-4o-mini", py "gpt-4o-mini");
    (py "gpt5-low", py "gpt-5"); (py "gpt5-medium", py "gpt-5");
    (py "gpt5-high", py "gpt-5"); (py "gpt5-nano", py "gpt-5-nano");
    (py "gpt-5-nano", py "gpt-5-nano"); (py "gpt5-1", py "gpt-5-1") ].

(** [alias_map.get(model_name, model_name)]. *)
Definition chosen_model_of (model_name : Py.str) : Py.str :=
  default model_name (dict_get model_name alias_map).

(** The shard of [invoke_llm]: zero unless sharding is on. *)
Definition shard_of (C : CacheConfig) (runtime_json : Py.str) : Exc Z :=
  if 1 <? PROMPT_CACHE_SHARDS C
  then (crc <- _crc32_u32 runtime_json ;; Ok (crc mod PROMPT_CACHE_SHARDS C))%exc
  else Ok 0.

(** The value of [prompt_cache_key] in [invoke_llm] (lines 153 to 171). *)
Definition prompt_cache_key_of (C : CacheConfig) (user_payload : dict value)
    (model_name : Py.str) : Exc Py.str :=
  let chosen_model := chosen_model_of model_name in
  let passage := _extract_passage user_payload in
  let runtime_json := _stable_json_dumps [(py "passage", VStr passage)] in
  (shard <- shard_of C runtime_json ;;
   Ok (_build_prompt_cache_key (PROMPT_VERSION C) chosen_model shard))%exc.

(** ** The world: files, the LLM provider, the video services *)

(** A path is the list of its components; [p / name] adds one component. *)
Definition Path := list Py.str.

Definition path_div (p : Path) (name : Py.str) : Path := p ++ [name].
Infix "//" := path_div (at level 40, left associativity).

(** [Path.stem]: the final component without its last suffix. *)
Definition path_stem (p : Path) : Py.str :=
  let name := List.last p [] in
  match Py.rfind_char 46 name with
  | Some i =>
      if (0 <? i)%nat && (i <? length name - 1)%nat then firstn i name else name
  | None => name
  end.

(** What the chat model is built with and what its [invoke] is given. *)
Record LlmRequest := {
  rq_model : Py.str;
  rq_temperature : Z;
  rq_api_key : Py.str;
  rq_request_timeout : Z;
  rq_max_retries : Z;
  rq_prompt_cache_retention : option Z;
  rq_reasoning_low : bool;
  rq_system : Py.str;
  rq_human : Py.str;
  rq_invoke_cache : option (Py.str * Z);
}.

(** The [content] of a response: a text, or a list of content blocks. *)
Inductive LlmContent :=
| ContentText (s : Py.str)
| ContentBlocks (blocks : list (dict value)).

(** One call of [invoke_llm] that reached the provider. *)
Record LlmCall := {
  call_system_prompt : Py.str;
  call_user_payload : dict value;
  call_model_name : Py.str;
  call_request : LlmRequest;
}.

(** The text files on disk, by path, and the calls made to the provider. *)
Record World := {
  fs : gmap Path Py.str;
  llm_log : list LlmCall;
}.

(** A computation reads and changes the world and may raise; what it did
    before raising stays done. *)
Definition M (A : Type) := World -> Exc A * World.

Definition ret {A} (a : A) : M A := fun w => (Ok a, w).
Definition raise {A} (e : exn) : M A := fun w => (Raise e, w).
Definition bind {A B} (m : M A) (k : A -> M B) : M B :=
  fun w => match m w with
           | (Ok a, w') => k a w'
           | (Raise e, w') => (Raise e, w')
           end.
Definition lift {A} (x : Exc A) : M A := fun w => (x, w).

Declare Scope M_scope.
Delimit Scope M_scope with M.
Notation "x <- e ;; k" := (bind e (fun x => k))
  (at level 100, e at next level, right associativity) : M_scope.
Notation "e ;;; k" := (bind e (fun _ => k))
  (at level 100, right associativity) : M_scope.

(** The object [YouTube(url)]: its title and its best progressive MP4
    stream, whose [download] returns the path of the file it wrote. *)
Record YouTubeVideo := {
  yt_title : option Py.str;
  yt_first_stream : option (Path -> Exc Path);
}.

(** The two shapes of [YouTubeTranscriptApi]. *)
Inductive TranscriptApi :=
| HasGetTranscript (get_transcript : Py.str -> Exc (list TranscriptEntry))
| HasFetch (fetch : Py.str -> Exc (list TranscriptEntry)).

(** Everything outside the repository that a run depends on. *)
Record Externals := {
  lib : PyLib;
  REPO_ROOT : Path;
  OPENAI_API_KEY : option Py.str;
  cache_config : CacheConfig;
  YouTube : Py.str -> Exc YouTubeVideo;
  YouTubeTranscriptApi : TranscriptApi;
  chat_model : list LlmCall -> LlmRequest -> Exc LlmContent;
}.

(** ** [app/main.py]: file helpers *)

(** [path.exists()], [load_text(path)], [save_text(path, text)].  The
    store holds, for each path, the text of the file as [read_text] gives
    it; directories and the newline convention of the platform are not
    modelled. *)
Definition path_exists (p : Path) : M bool :=
  fun w => (Ok (bool_decide (is_Some (fs w !! p))), w).

Definition load_text (p : Path) : M Py.str :=
  fun w => match fs w !! p with
           | Some content => (Ok content, w)
           | None => (Raise (FileNotFoundError (List.last p [])), w)
           end.

Definition save_text (p : Path) (content : Py.str) : M unit :=
  fun w => (Ok tt, {| fs := <[p := content]> (fs w); llm_log := llm_log w |}).

(** ** [utils/youtube.py]: the services *)

(** [download_video(url, output_dir)]. *)
Definition download_video (E : Externals) (url : Py.str) (output_dir : Path) : M (Path * Py.str) :=
  (yt <- lift (YouTube E url) ;;
   match yt_first_stream yt with
   | None => raise (RuntimeError (py "No progressive MP4 stream found for this video."))
   | Some download =>
       video_path <- lift (download output_dir) ;;
       ret (video_path,
            match yt_title yt with
            | Some t => if Py.truthy t then t else py "youtube_video"
            | None => py "youtube_video"
            end)
   end)%M.

(** [fetch_transcript_text(url)]. *)
Definition fetch_transcript_text (E : Externals) (url : Py.str) : M Py.str :=
  (video_id <- lift (extract_video_id (lib E) url) ;;
   match YouTubeTranscriptApi E with
   | HasGetTranscript get_transcript =>
       entries <- lift (get_transcript video_id) ;;
       ret (join_entries entries)
   | HasFetch fetch =>
       entries <- lift (fetch video_id) ;;
       ret (join_entries entries)
   end)%M.

(** ** [utils/llm_client.py]: [invoke_llm] *)

Definition invoke_llm (E : Externals) (system_prompt : Py.str) (user_payload : dict value)
    (model_name : Py.str) (prompt_cache_retention : option Z) : M LlmContent :=
  match OPENAI_API_KEY E with
  | Some (c :: k) =>
      let openai_api_key := c :: k in
      let chosen_model := chosen_model_of model_name in
      let passage := _extract_passage user_payload in
      let retention :=
        match prompt_cache_retention with
        | None => PROMPT_CACHE_RETENTION_SECONDS (cache_config E)
        | Some r => r
        end in
      (prompt_cache_key <- lift (prompt_cache_key_of (cache_config E) user_payload model_name) ;;
       let request :=
         {| rq_model := chosen_model;
            rq_temperature := 0;
            rq_api_key := openai_api_key;
            rq_request_timeout := 60;
            rq_max_retries := 2;
            rq_prompt_cache_retention := if 0 <? retention then Some retention else None;
            rq_reasoning_low :=
              bool_decide (chosen_model ∈ [py "gpt-5"; py "gpt-5-1"]);
            rq_system := system_prompt;
            rq_human := py "the passage is:" ++ [Py.NEWLINE] ++ passage;
            rq_invoke_cache :=
              if 0 <? retention then Some (prompt_cache_key, retention) else None |} in
       fun w =>
         (chat_model E (llm_log w) request,
          {| fs := fs w;
             llm_log := llm_log w ++
               [{| call_system_prompt := system_prompt;
                   call_user_payload := user_payload;
                   call_model_name := model_name;
                   call_request := request |}] |}))%M
  | _ => raise (RuntimeError (py "OPENAI_API_KEY is not set in the environment."))
  end.

(** ** [utils/prompt_loader.py] *)

Definition PROMPTS_DIR (E : Externals) : Path := REPO_ROOT E // py "prompts".

(** [load_prompt(name)]. *)
Definition load_prompt (E : Externals) (name : Py.str) : M Py.str :=
  let prompt_path := PROMPTS_DIR E // (name ++ py ".txt") in
  (found <- path_exists prompt_path ;;
   if negb found
   then raise (FileNotFoundError (py "Prompt not found: " ++ Py.join (py "/") prompt_path))
   else content <- load_text prompt_path ;; ret (Py.strip content))%M.

(** ** [utils/agents.py] *)

(** [VideoTranscriptAgent(video_dir, transcript_dir).run(url)]. *)
Definition VideoTranscriptAgent_run (E : Externals) (video_dir transcript_dir : Path)
    (url : Py.str) : M (Path * Path * Py.str) :=
  (vt <- download_video E url video_dir ;;
   let '(video_path, title) := vt in
   transcript_text <- fetch_transcript_text E url ;;
   let transcript_filename := sanitize_filename (lib E) title ++ py ".txt" in
   let transcript_path := transcript_dir // transcript_filename in
   save_text transcript_path transcript_text ;;;
   ret (video_path, transcript_path, transcript_text))%M.

(** [TranscriptCorrectionAgent().run(transcript, model_name)]. *)
Definition TranscriptCorrectionAgent_run (E : Externals) (transcript model_name : Py.str)
    : M LlmContent :=
  (system_prompt <- load_prompt E (py "system_modify") ;;
   let payload :=
     [ (py "task", VStr (py "correct_transcript"));
       (py "instructions",
        VStr (py "Fix errors but keep meaning and all important points."));
       (py "transcript", VStr transcript) ] in
   invoke_llm E system_prompt payload model_name None)%M.

(** [TranslationAgent().run(transcript, model_name)]. *)
Definition TranslationAgent_run (E : Externals) (transcript model_name : Py.str)
    : M LlmContent :=
  (system_prompt <- load_prompt E (py "system_translate") ;;
   let payload :=
     [ (py "task", VStr (py "translate_transcript"));
       (py "target_language", VStr (py "Turkish (Istanbul)"));
       (py "transcript", VStr transcript) ] in
   invoke_llm E system_prompt payload model_name None)%M.

(** [DialogueAgent().run(transcript, model_name)]. *)
Definition DialogueAgent_run (E : Externals) (transcript model_name : Py.str)
    : M LlmContent :=
  (system_prompt <- load_prompt E (py "system_dialogue") ;;
   let payload :=
     [ (py "task", VStr (py "dialogue_conversion"));
       (py "transcript", VStr transcript) ] in
   invoke_llm E system_prompt payload model_name None)%M.

(** ** [app/main.py] *)

(** [extract_transcript_passage(full_text, max_chars)]; [rsplit] never
    returns an empty list, so [[0]] is its head. *)
Definition extract_transcript_passage (full_text : Py.str) (max_chars : Z) : Py.str :=
  let compact := Py.join (py " ") (Py.split full_text) in
  if Py.len compact <=? max_chars then compact
  else
    let trimmed := hd [] (Py.rsplit1 Py.SPACE (Py.slice_to compact max_chars)) in
    trimmed ++ py "...".

(** The dictionary of [build_output_paths], one field per key. *)
Record OutputPaths := {
  op_passage : Path;
  op_corrected : Path;
  op_translated : Path;
  op_dialogue : Path;
}.

(** [build_output_paths(stem, output_dir)]. *)
Definition build_output_paths (stem : Py.str) (output_dir : Path) : OutputPaths :=
  {| op_passage := output_dir // (stem ++ py "_passage.txt");
     op_corrected := output_dir // (stem ++ py "_corrected.txt");
     op_translated := output_dir // (stem ++ py "_tr_istanbul.txt");
     op_dialogue := output_dir // (stem ++ py "_dialogue.txt") |}.

(** The command line. *)
Record Args := {
  url : Py.str;
  model : Py.str;
  passage_chars : Z;
}.

(** What [main] prints (the six paths) and the values its four stage
    variables hold when it ends. *)
Record MainResult := {
  r_video_path : Path;
  r_transcript_path : Path;
  r_output_paths : OutputPaths;
  r_passage : Py.str;
  r_corrected : Py.str;
  r_translated : Py.str;
  r_dialogue : Py.str;
}.

(** [x[0]["text"]] on a list of content blocks. *)
Definition first_block_text (blocks : list (dict value)) : Exc value :=
  match blocks with
  | [] => Raise IndexError
  | b :: _ =>
      match dict_get (py "text") b with
      | Some v => Ok v
      | None => Raise (KeyError (py "text"))
      end
  end.

(** The branch of a stage that has no file yet: a list-shaped answer is
    replaced by the text of its first block, and the text is saved;
    [write_text] accepts a [str] only. *)
Definition save_stage_answer (p : Path) (answer : LlmContent) : M Py.str :=
  match answer with
  | ContentBlocks blocks =>
      (v <- lift (first_block_text blocks) ;;
       match v with
       | VStr s => save_text p s ;;; ret s
       | _ => raise TypeError
       end)%M
  | ContentText s => (save_text p s ;;; ret s)%M
  end.

(** [main()], after the arguments are parsed. *)
Definition main (E : Externals) (args : Args) : M MainResult :=
  let video_dir := REPO_ROOT E // py "data" // py "video" in
  let transcript_dir := REPO_ROOT E // py "data" // py "transcript" in
  let output_dir := REPO_ROOT E // py "data" // py "output" in
  (vtt <- VideoTranscriptAgent_run E video_dir transcript_dir (url args) ;;
   let '(video_path, transcript_path, transcript_text) := vtt in
   let passage := extract_transcript_passage transcript_text (passage_chars args) in
   let output_paths := build_output_paths (path_stem transcript_path) output_dir in
   passage <-
     (cached <- path_exists (op_passage output_paths) ;;
      if cached then load_text (op_passage output_paths)
      else save_text (op_passage output_paths) passage ;;; ret passage) ;;
   corrected <-
     (cached <- path_exists (op_corrected output_paths) ;;
      if cached then load_text (op_corrected output_paths)
      else
        corrected <- TranscriptCorrectionAgent_run E passage (model args) ;;
        save_stage_answer (op_corrected output_paths) corrected) ;;
   translated <-
     (cached <- path_exists (op_translated output_paths) ;;
      if cached then load_text (op_translated output_paths)
      else
        translated <- TranslationAgent_run E corrected (model args) ;;
        save_stage_answer (op_translated output_paths) translated) ;;
   dialogue <-
     (cached <- path_exists (op_dialogue output_paths) ;;
      if cached then load_text (op_dialogue output_paths)
      else
        dialogue <- DialogueAgent_run E translated (model args) ;;
        save_stage_answer (op_dialogue output_paths) dialogue) ;;
   ret {| r_video_path := video_path;
          r_transcript_path := transcript_path;
          r_output_paths := output_paths;
          r_passage := passage;
          r_corrected := corrected;
          r_translated := translated;
          r_dialogue := dialogue |})%M.

(** ** Notions the statements use *)

(** A word: a non-empty run of characters none of which is whitespace. *)
Definition is_word (t : Py.str) : Prop :=
  t <> [] /\ Forall (fun c => Py.isspace c = false) t.

(** The whitespace-compacted form of a text. *)
Definition compacted (full_text : Py.str) : Py.str :=
  Py.join (py " ") (Py.split full_text).

(** A text is compact when its words are separated by single spaces and it
    has no whitespace at either end: no whitespace other than the space, no
    space first, last, or after a space.  [sep] tells whether a space (or
    the start) precedes. *)
Fixpoint is_compact_from (sep : bool) (s : Py.str) : bool :=
  match s with
  | [] => negb sep
  | c :: s' =>
      if c =? Py.SPACE then negb sep && is_compact_from true s'
      else negb (Py.isspace c) && is_compact_from false s'
  end.

Definition is_compact (s : Py.str) : bool :=
  match s with [] => true | _ => is_compact_from true s end.

(** Trimming a window back to its last space: its characters are dropped
    from the end up to and including the last space; a window without a
    space is left whole. *)
Fixpoint drop_to_space (r : Py.str) : Py.str :=
  match r with
  | [] => []
  | c :: r' => if c =? Py.SPACE then r' else drop_to_space r'
  end.

Definition trim_back_to_last_space (window : Py.str) : Py.str :=
  if Py.contains Py.SPACE window then rev (drop_to_space (rev window)) else window.

(** The characters the sanitizer lets through, and the character it puts
    for a given one. *)
Definition filename_char (L : PyLib) (c : Z) : Prop :=
  Py.isalnum (unicode L) c = true \/ c = Py.SPACE \/ c = Py.DASH \/ c = Py.UNDERSCORE.

Definition replace_unsafe (L : PyLib) (ch : Z) : Z :=
  if Py.isalnum (unicode L) ch || bool_decide (ch ∈ [Py.SPACE; Py.DASH; Py.UNDERSCORE])
  then ch else Py.UNDERSCORE.

(** The entries a transcript library hands out, whichever its shape. *)
Definition api_entries (api : TranscriptApi) (video_id : Py.str) : Exc (list TranscriptEntry) :=
  match api with
  | HasGetTranscript get_transcript => get_transcript video_id
  | HasFetch fetch => fetch video_id
  end.

(** The stripped text of the entries whose text field is not empty, in
    entry order. *)
Definition kept_texts (entries : list TranscriptEntry) : list Py.str :=
  omap (fun e => match entry_text e with
                 | Some s => if Py.truthy s then Some (Py.strip s) else None
                 | None => None
                 end) entries.

(** The stripped text fields that are not empty, in entry order. *)
Definition nonempty_stripped_texts (entries : list TranscriptEntry) : list Py.str :=
  filter (fun s => Py.truthy s = true)
    (map (fun e => Py.strip (default [] (entry_text e))) entries).

(** No entry has a text made of whitespace only. *)
Definition no_blank_text (entries : list TranscriptEntry) : Prop :=
  Forall (fun e => forall s, entry_text e = Some s -> s <> [] -> Py.strip s <> []) entries.

(** A payload holds a usable string at a key: a string that is not empty
    once stripped. *)
Definition nonblank_at (key : Py.str) (payload : dict value) (v : Py.str) : Prop :=
  dict_get key payload = Some (VStr v) /\ Py.strip v <> [].

(** The first key of the priority list that holds a non-empty string. *)
Fixpoint first_nonempty_string (keys : list Py.str) (payload : dict value) : option Py.str :=
  match keys with
  | [] => None
  | key :: keys' =>
      match dict_get key payload with
      | Some (VStr (c :: v)) => Some (c :: v)
      | _ => first_nonempty_string keys' payload
      end
  end.

(** Members of an object in key order: no member is followed by one with
    a smaller key. *)
Definition key_le {V} (a b : Py.str * V) : Prop := Py.ltb (fst b) (fst a) = false.

(** A character of the printable ASCII range. *)
Definition printable_ascii (c : Z) : Prop := 32 <= c <= 126.

(** A payload for which the first non-empty string and the first usable
    string differ. *)
Definition blank_transcript_payload : dict value :=
  [ (py "transcript", VStr (py " ")); (py "passage", VStr (py "x")) ].

(** The shard index of a passage: zero when the shard count is at most
    one, else the CRC-32 of the serialised passage object, as an unsigned
    32-bit value, modulo the shard count.  The serialisation is ASCII, so
    its characters are its bytes. *)
Definition shard_index (C : CacheConfig) (passage : Py.str) : Z :=
  if PROMPT_CACHE_SHARDS C <=? 1 then 0
  else (Zlib.crc32 (_stable_json_dumps [(py "passage", VStr passage)]) mod 2 ^ 32)
       mod PROMPT_CACHE_SHARDS C.

(** The retention [invoke_llm] works with. *)
Definition effective_retention (C : CacheConfig) (prompt_cache_retention : option Z) : Z :=
  match prompt_cache_retention with
  | None => PROMPT_CACHE_RETENTION_SECONDS C
  | Some r => r
  end.

(** The hosts on which the video is named by the query. *)
Definition youtube_hosts : list (option Py.str) :=
  [Some (py "www.youtube.com"); Some (py "youtube.com"); Some (py "m.youtube.com")].

(** The error of [extract_video_id] for a URL it does not support. *)
Definition UnsupportedURL (u : Py.str) : exn :=
  ValueError (py "Unsupported YouTube URL format: " ++ u).

(** The directories of [main]. *)
Definition video_dir (E : Externals) : Path := REPO_ROOT E // py "data" // py "video".
Definition transcript_dir (E : Externals) : Path := REPO_ROOT E // py "data" // py "transcript".
Definition output_dir (E : Externals) : Path := REPO_ROOT E // py "data" // py "output".

(** The stage a call to the provider belongs to: the [task] of its payload. *)
Definition call_task (c : LlmCall) : option value :=
  dict_get (py "task") (call_user_payload c).

Definition task_calls (task : Py.str) (calls : list LlmCall) : Prop :=
  Forall (fun c => call_task c = Some (VStr task)) calls.

Definition no_call_for (task : Py.str) (calls : list LlmCall) : Prop :=
  Forall (fun c => call_task c <> Some (VStr task)) calls.

(** The calls made between two worlds of a run. *)
Definition new_calls (w w' : World) : list LlmCall :=
  skipn (length (llm_log w)) (llm_log w').

(** The two shapes of a stage of [main]: the passage stage, and a stage
    that asks an agent when its file is missing. *)
Definition passage_block (p : Path) (passage : Py.str) : M Py.str :=
  (cached <- path_exists p ;;
   if cached then load_text p else save_text p passage ;;; ret passage)%M.

Definition stage_block (p : Path) (run : M LlmContent) : M Py.str :=
  (cached <- path_exists p ;;
   if cached then load_text p
   else answer <- run ;; save_stage_answer p answer)%M.

(** What one stage does to the world: it writes at most its own file,
    does nothing at all when that file exists, and makes the calls [calls]. *)
Definition stage_step (p : Path) (calls : list LlmCall) (w w' : World) : Prop :=
  (forall q, q <> p -> fs w' !! q = fs w !! q)
  /\ (is_Some (fs w !! p) -> w' = w)
  /\ llm_log w' = llm_log w ++ calls.

(** A small environment for concrete runs: ASCII-only character data, a
    library whose checks pass, one video with one transcript, and a chat
    model that answers with the text it is sent. *)
Definition demo_lib : PyLib :=
  {| unicode := {| Py.uni_isalnum := fun _ => false;
                   Py.uni_lower := fun s => s;
                   Py.uni_unquote := fun s => s |};
     url_checks := {| Urllib.netloc_nfkc_ok := fun _ => true;
                      Urllib.bracketed_host_ok := fun _ => true |} |}.

Definition demo_config : CacheConfig :=
  {| PROMPT_CACHE_SHARDS := 16;
     PROMPT_CACHE_RETENTION_SECONDS := 300;
     PROMPT_VERSION := py "v1" |}.

Definition demo_externals (entries : list TranscriptEntry) : Externals :=
  {| lib := demo_lib;
     REPO_ROOT := [py "repo"];
     OPENAI_API_KEY := Some (py "sk-demo");
     cache_config := demo_config;
     YouTube := fun _ =>
       Ok {| yt_title := Some (py "Demo: video");
             yt_first_stream := Some (fun dir => Ok (dir // py "Demo video.mp4")) |};
     YouTubeTranscriptApi := HasFetch (fun _ => Ok entries);
     chat_model := fun _ request => Ok (ContentText (rq_human request)) |}.

Definition demo_url : Py.str := py "https://youtu.be/XYZ789".

Definition empty_world : World := {| fs := ∅; llm_log := [] |}.

Definition demo_args : Args :=
  {| url := demo_url; model := py "gpt5-low"; passage_chars := 600000 |}.

(** A world in which the four artifacts of the demo run exist. *)
Definition demo_cached_world : World :=
  {| fs := <[ [py "repo"; py "data"; py "output"; py "Demo__video_passage.txt"]
                := py "cached passage" ]>
           (<[ [py "repo"; py "data"; py "output"; py "Demo__video_corrected.txt"]
                 := py "cached correction" ]>
            (<[ [py "repo"; py "data"; py "output"; py "Demo__video_tr_istanbul.txt"]
                  := py "cached translation" ]>
             (<[ [py "repo"; py "data"; py "output"; py "Demo__video_dialogue.txt"]
                   := py "cached dialogue" ]> ∅)));
     llm_log := [] |}.

Definition hello_world_entries : list TranscriptEntry :=
  [ {| entry_text := Some (py "Hello") |}; {| entry_text := Some (py "world") |} ].

Definition hello_blank_world_entries : list TranscriptEntry :=
  [ {| entry_text := Some (py "Hello") |}; {| entry_text := Some (py " ") |};
    {| entry_text := Some (py "world") |} ].

Definition demo_video_path : Path :=
  [py "repo"; py "data"; py "video"; py "Demo video.mp4"].

Definition demo_transcript_path : Path :=
  [py "repo"; py "data"; py "transcript"; py "Demo__video.txt"].

(** The cached world once the video agent has written the transcript. *)
Definition demo_cached_world_after_agent : World :=
  {| fs := <[demo_transcript_path := py "Hello world"]> (fs demo_cached_world);
     llm_log := [] |}.

(** ** Lemmas on strings *)

Lemma space_isspace : Py.isspace Py.SPACE = true.
Proof. reflexivity. Qed.

Lemma split_go_word (t cur s : Py.str) :
  Forall (fun c => Py.isspace c = false) t ->
  Py.split_go cur (t ++ s) = Py.split_go (cur ++ t) s.
Proof.
  intros Ht. revert cur. induction Ht as [|c t Hc _ IH]; intros cur.
  - by rewrite app_nil_r.
  - simpl. rewrite Hc, IH. by rewrite <- app_assoc.
Qed.

Lemma split_go_words (s cur : Py.str) :
  Forall (fun c => Py.isspace c = false) cur ->
  Forall is_word (Py.split_go cur s).
Proof.
  revert cur. induction s as [|c s IH]; intros cur Hcur; simpl.
  - destruct cur; constructor; [|constructor]. split; [done|assumption].
  - destruct (Py.isspace c) eqn:Hc.
    + destruct cur.
      * apply IH. constructor.
      * constructor; [split; [done|assumption]|]. apply IH. constructor.
    + apply IH. apply Forall_app. split; [assumption|]. by repeat constructor.
Qed.

Lemma split_words (s : Py.str) : Forall is_word (Py.split s).
Proof. apply split_go_words. constructor. Qed.

Lemma split_go_space (cur s : Py.str) :
  cur <> [] -> Py.split_go cur (Py.SPACE :: s) = cur :: Py.split_go [] s.
Proof. intros H. simpl. by destruct cur. Qed.

Lemma split_go_end (cur : Py.str) : cur <> [] -> Py.split_go cur [] = [cur].
Proof. intros H. by destruct cur. Qed.

Lemma split_join_words (toks : list Py.str) :
  Forall is_word toks -> Py.split (Py.join (py " ") toks) = toks.
Proof.
  unfold Py.split. induction 1 as [|t toks [Hne Ht] Htoks IH]; [done|].
  destruct toks as [|t2 toks].
  - simpl. rewrite <- (app_nil_r t) at 1. rewrite split_go_word by done.
    by apply split_go_end.
  - change (Py.join (py " ") (t :: t2 :: toks))
      with (t ++ Py.SPACE :: Py.join (py " ") (t2 :: toks)).
    rewrite split_go_word by done. rewrite app_nil_l.
    rewrite split_go_space by done. by rewrite IH.
Qed.

Lemma compacted_idempotent (s : Py.str) : compacted (compacted s) = compacted s.
Proof. unfold compacted. by rewrite split_join_words by apply split_words. Qed.

Lemma split_go_nonempty (c : Z) (s cur : Py.str) :
  Py.isspace c = false -> Py.split_go cur (c :: s) <> [].
Proof.
  intros Hc. simpl. rewrite Hc.
  assert (Hgen : forall s cur, cur <> [] -> Py.split_go cur s <> []).
  { clear. induction s as [|c s IH]; intros cur Hcur; simpl.
    - by destruct cur.
    - destruct (Py.isspace c); [by destruct cur|]. apply IH. by destruct cur. }
  apply Hgen. by destruct cur.
Qed.

Lemma join_cons_nonempty (sep t : Py.str) (ts : list Py.str) :
  ts <> [] -> Py.join sep (t :: ts) = t ++ sep ++ Py.join sep ts.
Proof. by destruct ts. Qed.

Lemma compact_from_join (s : Py.str) :
  (forall cur, cur <> [] -> Forall (fun c => Py.isspace c = false) cur ->
     is_compact_from false s = true ->
     Py.join (py " ") (Py.split_go cur s) = cur ++ s)
  /\ (is_compact_from true s = true ->
      Py.join (py " ") (Py.split_go [] s) = s /\ Py.split_go [] s <> []).
Proof.
  induction s as [|c s [IHin IHsep]]; split.
  - intros cur Hne _ _. simpl. destruct cur; [done|]. by rewrite app_nil_r.
  - simpl. discriminate.
  - intros cur Hne Hcur H. simpl in H. simpl.
    destruct (Z.eqb_spec c Py.SPACE) as [->|Hsp].
    + simpl in H. destruct (IHsep H) as [Hj Hn].
      rewrite space_isspace. destruct cur; [done|].
      rewrite join_cons_nonempty by done. by rewrite Hj.
    + apply andb_prop in H as [Hc H]. apply negb_true_iff in Hc. rewrite Hc.
      rewrite IHin; [by rewrite <- app_assoc| by destruct cur | | done].
      apply Forall_app. split; [done|]. by repeat constructor.
  - intros H. simpl in H.
    destruct (Z.eqb_spec c Py.SPACE) as [->|Hsp]; [discriminate|].
    apply andb_prop in H as [Hc H]. apply negb_true_iff in Hc.
    split; [|by apply split_go_nonempty].
    simpl. rewrite Hc. simpl. rewrite IHin; try done. by repeat constructor.
Qed.

Lemma compact_fixpoint (s : Py.str) : is_compact s = true -> compacted s = s.
Proof.
  destruct s as [|c s]; [done|]. unfold is_compact, compacted, Py.split.
  intros H. by apply compact_from_join.
Qed.

Lemma contains_app (ch : Z) (a b : Py.str) :
  Py.contains ch (a ++ b) = Py.contains ch a || Py.contains ch b.
Proof. apply existsb_app. Qed.

Lemma contains_false_Forall (ch : Z) (s : Py.str) :
  Py.contains ch s = false <-> Forall (fun c => c <> ch) s.
Proof.
  induction s as [|c s IH]; simpl; [by split; [constructor|]|].
  rewrite orb_false_iff, IH, Forall_cons, Z.eqb_neq.
  split; intros [H1 H2]; (split; [congruence|done]).
Qed.

Lemma word_no_space (t : Py.str) : is_word t -> Py.contains Py.SPACE t = false.
Proof.
  intros [_ Ht]. apply contains_false_Forall.
  eapply Forall_impl; [exact Ht|]. intros c Hc ->. by rewrite space_isspace in Hc.
Qed.

Lemma rfind_char_None (ch : Z) (s : Py.str) :
  Py.rfind_char ch s = None <-> Py.contains ch s = false.
Proof.
  induction s as [|c s IH]; simpl; [done|].
  destruct (Py.rfind_char ch s) as [i|].
  - split; [done|]. rewrite orb_false_iff. intros [_ H]. by apply IH in H.
  - rewrite (Z.eqb_sym ch c). destruct (c =? ch); simpl; [done|]. by rewrite <- IH.
Qed.

Lemma rfind_char_Some (ch : Z) (s : Py.str) (i : nat) :
  Py.rfind_char ch s = Some i ->
  s = firstn i s ++ ch :: skipn (S i) s
  /\ Py.contains ch (skipn (S i) s) = false
  /\ (i < length s)%nat.
Proof.
  revert i. induction s as [|c s IH]; intros i; simpl; [done|].
  destruct (Py.rfind_char ch s) as [j|] eqn:Hr.
  - intros [= <-]. destruct (IH j eq_refl) as (Heq & Hno & Hlt).
    split; [|split; [done|lia]]. simpl. by rewrite <- Heq.
  - destruct (Z.eqb_spec c ch) as [->|]; [|done]. intros [= <-].
    split; [done|]. split; [|lia]. simpl. rewrite drop_0. by apply rfind_char_None.
Qed.

Lemma drop_to_space_app (a b : Py.str) :
  Py.contains Py.SPACE a = false -> drop_to_space (a ++ Py.SPACE :: b) = b.
Proof.
  intros Ha. apply contains_false_Forall in Ha.
  induction Ha as [|c a Hc _ IH]; cbn [app drop_to_space].
  - by rewrite Z.eqb_refl.
  - apply Z.eqb_neq in Hc. by rewrite Hc.
Qed.

Lemma contains_rev (ch : Z) (s : Py.str) : Py.contains ch (rev s) = Py.contains ch s.
Proof.
  induction s as [|c s IH]; [done|]. simpl. rewrite contains_app, IH. simpl.
  rewrite orb_false_r. apply orb_comm.
Qed.

(** [rsplit(" ", 1)[0]] trims a window back to its last space. *)
Lemma hd_rsplit1_trim (window : Py.str) :
  hd [] (Py.rsplit1 Py.SPACE window) = trim_back_to_last_space window.
Proof.
  unfold Py.rsplit1, trim_back_to_last_space.
  destruct (Py.rfind_char Py.SPACE window) as [i|] eqn:Hr.
  - destruct (rfind_char_Some _ _ _ Hr) as (Heq & Hno & _). simpl.
    assert (Hc : Py.contains Py.SPACE window = true).
    { rewrite Heq, contains_app. simpl. by rewrite orb_true_r. }
    rewrite Hc. rewrite Heq at 2. rewrite rev_app_distr. simpl.
    rewrite <- app_assoc. simpl. rewrite drop_to_space_app.
    + by rewrite rev_involutive.
    + by rewrite contains_rev.
  - apply rfind_char_None in Hr. by rewrite Hr.
Qed.

(** Cutting a space-joined sequence of words at one of its spaces leaves
    whole words on both sides. *)
Lemma join_cut_at_space (toks : list Py.str) (pre post : Py.str) :
  Forall is_word toks ->
  Py.join (py " ") toks = pre ++ Py.SPACE :: post ->
  exists k, (0 < k < length toks)%nat
    /\ pre = Py.join (py " ") (firstn k toks)
    /\ post = Py.join (py " ") (skipn k toks).
Proof.
  intros Htoks. revert pre. induction Htoks as [|t toks Ht Htoks IH]; intros pre Heq.
  - by destruct pre.
  - pose proof (word_no_space _ Ht) as Hns.
    destruct toks as [|t2 toks].
    + simpl in Heq. rewrite Heq, contains_app in Hns. simpl in Hns.
      by rewrite orb_true_r in Hns.
    + change (Py.join (py " ") (t :: t2 :: toks))
        with (t ++ Py.SPACE :: Py.join (py " ") (t2 :: toks)) in Heq.
      remember (Py.join (py " ") (t2 :: toks)) as J eqn:HJ.
      assert (Hone : forall p, p = J ->
                exists k, (0 < k < length (t :: t2 :: toks))%nat
                  /\ t = Py.join (py " ") (firstn k (t :: t2 :: toks))
                  /\ p = Py.join (py " ") (skipn k (t :: t2 :: toks))).
      { intros p ->. exists 1%nat. split; [simpl; lia|]. split; [done|by subst J]. }
      apply app_eq_app in Heq as [m [[-> Hm]|[-> Hm]]].
      * destruct m as [|c m]; cbn [app] in Hm.
        -- injection Hm as Hm. rewrite app_nil_r in *. apply Hone; congruence.
        -- injection Hm as Hc _. subst c.
           rewrite contains_app in Hns. simpl in Hns. by rewrite orb_true_r in Hns.
      * destruct m as [|c m]; cbn [app] in Hm.
        -- injection Hm as Hm. rewrite app_nil_r in *. apply Hone; congruence.
        -- injection Hm as Hc Hm. subst c.
           destruct (IH _ Hm) as (k & Hk & Hpre & Hpost).
           exists (S k). split; [simpl in *; lia|]. split; [|done].
           rewrite firstn_cons, join_cons_nonempty.
           ++ by rewrite <- Hpre.
           ++ destruct k; [lia|]. done.
Qed.

Lemma slice_to_nonneg (s : Py.str) (n : Z) :
  0 <= n -> Py.slice_to s n = firstn (Z.to_nat n) s.
Proof. intros H. unfold Py.slice_to. destruct (Z.ltb_spec n 0); [lia|done]. Qed.

Lemma len_app (a b : Py.str) : Py.len (a ++ b) = Py.len a + Py.len b.
Proof. unfold Py.len. rewrite length_app. lia. Qed.

(** The shape of the trimmed window of [extract_transcript_passage]. *)
Lemma trimmed_window (full_text : Py.str) (n : nat) :
  let window := firstn n (compacted full_text) in
  let trimmed := hd [] (Py.rsplit1 Py.SPACE window) in
  (exists rest, window = trimmed ++ rest)
  /\ (Py.contains Py.SPACE window = false -> trimmed = window)
  /\ (Py.contains Py.SPACE window = true ->
      (length trimmed < length window)%nat
      /\ exists k, (0 < k < length (Py.split full_text))%nat
           /\ trimmed = Py.join (py " ") (firstn k (Py.split full_text))).
Proof.
  intros window trimmed. subst trimmed. unfold Py.rsplit1.
  destruct (Py.rfind_char Py.SPACE window) as [i|] eqn:Hr.
  - destruct (rfind_char_Some _ _ _ Hr) as (Heq & Hno & Hlt). simpl.
    assert (Hc : Py.contains Py.SPACE window = true).
    { rewrite Heq, contains_app. simpl. by rewrite orb_true_r. }
    split; [by eexists|]. split; [by rewrite Hc|]. intros _.
    split; [rewrite length_take; lia|].
    assert (Hcut : compacted full_text
                   = firstn i window ++ Py.SPACE ::
                       (skipn (S i) window ++ skipn n (compacted full_text))).
    { rewrite <- (take_drop n (compacted full_text)) at 1. fold window.
      rewrite Heq at 1. by rewrite <- app_assoc. }
    destruct (join_cut_at_space _ _ _ (split_words full_text) Hcut) as (k & Hk & Hpre & _).
    by exists k.
  - apply rfind_char_None in Hr. simpl.
    split; [exists []; by rewrite app_nil_r|]. split; [done|]. by rewrite Hr.
Qed.

(** ** The transcript passage (claims C3, C4, C5) *)

(** C3, as stated, fails: a truncated passage is longer than the budget in
    general (here 8 characters for a budget of 7), and a window without a
    space is cut inside a word. *)
Lemma passage_invariant_counterexample :
  extract_transcript_passage (py "ab cd ef") 7 = py "ab cd..."
  /\ ~ (Py.len (extract_transcript_passage (py "ab cd ef") 7) <= 7)
  /\ extract_transcript_passage (py "abcdef") 3 = py "abc..."
  /\ Py.split (py "abcdef") = [py "abcdef"].
Proof.
  split; [reflexivity|]. split; [|split; reflexivity].
  vm_compute. intros H. by apply H.
Qed.

(** C3 (amended): for every transcript text and every positive budget, the
    passage is at most three characters longer than the budget; when the
    compacted text fits the budget the passage is that text and is within
    the budget; otherwise the passage is a prefix of the first [max_chars]
    characters of the compacted text followed by ["..."], and when these
    characters contain a space the prefix is made of whole words of the
    transcript and the passage is at most two characters longer than the
    budget. *)
Theorem passage_invariant_amended (full_text : Py.str) (max_chars : Z) :
  0 < max_chars ->
  let out := extract_transcript_passage full_text max_chars in
  let window := firstn (Z.to_nat max_chars) (compacted full_text) in
  Py.len out <= max_chars + 3
  /\ (Py.len (compacted full_text) <= max_chars ->
      out = compacted full_text /\ Py.len out <= max_chars)
  /\ (max_chars < Py.len (compacted full_text) ->
      exists trimmed,
        out = trimmed ++ py "..."
        /\ (exists rest, window = trimmed ++ rest)
        /\ (Py.contains Py.SPACE window = true ->
            Py.len out <= max_chars + 2
            /\ exists k, (0 < k < length (Py.split full_text))%nat
                 /\ trimmed = Py.join (py " ") (firstn k (Py.split full_text)))).
Proof.
  intros Hpos out window. subst out. unfold extract_transcript_passage.
  fold (compacted full_text).
  destruct (Z.leb_spec (Py.len (compacted full_text)) max_chars) as [Hle|Hgt].
  - split; [lia|]. split; [done|lia].
  - rewrite slice_to_nonneg by lia. fold window.
    destruct (trimmed_window full_text (Z.to_nat max_chars)) as ([rest Hrest] & _ & Hsp).
    fold window in Hrest, Hsp.
    assert (Hwin : Py.len window <= max_chars).
    { unfold Py.len, window. rewrite length_take. lia. }
    set (trimmed := hd [] (Py.rsplit1 Py.SPACE window)) in *.
    assert (Htr : Py.len trimmed <= Py.len window).
    { pose proof (f_equal Py.len Hrest) as Hl. rewrite len_app in Hl.
      unfold Py.len in *. lia. }
    rewrite len_app. change (Py.len (py "...")) with 3.
    split; [lia|]. split; [intros; lia|]. intros _.
    exists trimmed. split; [done|]. split; [by exists rest|].
    intros Hc. destruct (Hsp Hc) as [Hlt Hk]. split; [unfold Py.len in *; lia|done].
Qed.

Lemma passage_invariant_amended_witness :
  0 < 7 /\ Py.len (extract_transcript_passage (py "ab cd ef") 7) <= 7 + 3.
Proof.
  split; [lia|]. apply (passage_invariant_amended (py "ab cd ef") 7). lia.
Defined.

(** C4: when the compacted text is longer than the budget, the passage is
    the first [budget] characters of the compacted text trimmed back to
    the last space, followed by ["..."]; its length is that of the trimmed
    prefix plus three; when the window holds a space the prefix is made of
    whole words, and it is the whole window only when the window holds no
    space. *)
Theorem truncation_structure (full_text : Py.str) (budget : Z) :
  0 <= budget ->
  budget < Py.len (compacted full_text) ->
  let window := firstn (Z.to_nat budget) (compacted full_text) in
  let trimmed := trim_back_to_last_space window in
  let out := extract_transcript_passage full_text budget in
  out = trimmed ++ py "..."
  /\ Py.len out = Py.len trimmed + 3
  /\ (Py.contains Py.SPACE window = true ->
      exists k, (0 < k < length (Py.split full_text))%nat
        /\ trimmed = Py.join (py " ") (firstn k (Py.split full_text)))
  /\ (Py.contains Py.SPACE window = false -> trimmed = window).
Proof.
  intros H0 Hlong window trimmed out. subst out trimmed.
  unfold extract_transcript_passage. fold (compacted full_text).
  destruct (Z.leb_spec (Py.len (compacted full_text)) budget) as [Hle|_]; [lia|].
  rewrite slice_to_nonneg by lia. fold window. rewrite hd_rsplit1_trim.
  split; [done|]. split; [by rewrite len_app|].
  destruct (trimmed_window full_text (Z.to_nat budget)) as (_ & Hnone & Hsp).
  fold window in Hnone, Hsp. rewrite hd_rsplit1_trim in Hnone, Hsp.
  split; [|done]. intros Hc. by destruct (Hsp Hc).
Qed.

Lemma truncation_structure_witness :
  0 <= 7 /\ 7 < Py.len (compacted (py "ab cd ef"))
  /\ extract_transcript_passage (py "ab cd ef") 7
     = trim_back_to_last_space (firstn (Z.to_nat 7) (compacted (py "ab cd ef"))) ++ py "...".
Proof.
  split; [lia|]. split; [reflexivity|].
  apply (truncation_structure (py "ab cd ef") 7); [lia|reflexivity].
Defined.

(** C5: a compact string within the budget is returned unchanged; when the
    compacted text fits the budget, extracting twice is extracting once;
    and ["a  b\n\nc"] with a budget of at least five gives ["a b c"]. *)
Theorem compaction_idempotent (s : Py.str) (max_chars : Z) :
  (is_compact s = true -> Py.len s <= max_chars ->
   extract_transcript_passage s max_chars = s)
  /\ (Py.len (compacted s) <= max_chars ->
      extract_transcript_passage (extract_transcript_passage s max_chars) max_chars
      = extract_transcript_passage s max_chars)
  /\ (5 <= max_chars ->
      extract_transcript_passage [97; 32; 32; 98; 10; 10; 99] max_chars = py "a b c").
Proof.
  assert (Hfit : forall t, Py.len (compacted t) <= max_chars ->
                   extract_transcript_passage t max_chars = compacted t).
  { intros t Ht. unfold extract_transcript_passage. fold (compacted t).
    destruct (Z.leb_spec (Py.len (compacted t)) max_chars); [done|lia]. }
  split; [|split].
  - intros Hc Hlen. rewrite Hfit; rewrite (compact_fixpoint _ Hc); done.
  - intros Hlen. rewrite (Hfit s Hlen). rewrite Hfit; rewrite compacted_idempotent; done.
  - intros H5. rewrite Hfit; [reflexivity|]. change (5 <= max_chars). done.
Qed.

Lemma compaction_idempotent_witness :
  is_compact (py "a b c") = true /\ Py.len (py "a b c") <= 5
  /\ extract_transcript_passage (py "a b c") 5 = py "a b c".
Proof.
  split; [reflexivity|]. split; [vm_compute; discriminate|].
  apply (proj1 (compaction_idempotent (py "a b c") 5)); [reflexivity|vm_compute; discriminate].
Defined.

(** ** The filename sanitizer (claims C6, C10) *)

Lemma join_Forall (P : Z -> Prop) (sep : Py.str) (toks : list Py.str) :
  Forall P sep -> Forall (Forall P) toks -> Forall P (Py.join sep toks).
Proof.
  intros Hsep. induction 1 as [|t toks Ht Htoks IH]; [constructor|].
  destruct toks as [|t2 toks]; [done|].
  change (Py.join sep (t :: t2 :: toks)) with (t ++ sep ++ Py.join sep (t2 :: toks)).
  by repeat (apply Forall_app; split).
Qed.

Lemma split_go_Forall (P : Z -> Prop) (s cur : Py.str) :
  Forall P cur -> Forall P s -> Forall (Forall P) (Py.split_go cur s).
Proof.
  revert cur. induction s as [|c s IH]; intros cur Hcur Hs; simpl.
  - destruct cur; [constructor|]. constructor; [done|constructor].
  - apply Forall_cons in Hs as [Hc Hs]. destruct (Py.isspace c).
    + destruct cur; [by apply IH|]. constructor; [done|]. by apply IH.
    + apply IH; [|done]. apply Forall_app. by repeat constructor.
Qed.

Lemma join_nil_singletons {A} (f : A -> Z) (l : list A) :
  Py.join [] (map (fun x => [f x]) l) = map f l.
Proof.
  induction l as [|x l IH]; [done|]. destruct l as [|y l]; [done|].
  change (map (fun x => [f x]) (x :: y :: l))
    with ([f x] :: map (fun x => [f x]) (y :: l)).
  rewrite join_cons_nonempty by done. rewrite IH. done.
Qed.

Lemma filter_truthy_words (toks : list Py.str) :
  Forall is_word toks -> filter (fun part => Py.truthy part = true) toks = toks.
Proof.
  induction 1 as [|t toks [Hne _] _ IH]; [done|].
  rewrite filter_cons. destruct (decide (Py.truthy t = true)) as [|Hn].
  - by rewrite IH.
  - by destruct t.
Qed.

Lemma join_words_nonempty (sep : Py.str) (toks : list Py.str) :
  Forall is_word toks -> toks <> [] -> Py.join sep toks <> [].
Proof.
  intros Hw Hne. destruct Hw as [|t toks [Ht _] _]; [done|].
  destruct toks; [done|]. rewrite join_cons_nonempty by done. by destruct t.
Qed.

Lemma replace_unsafe_char (L : PyLib) (ch : Z) : filename_char L (replace_unsafe L ch).
Proof.
  unfold replace_unsafe, filename_char.
  destruct (Py.isalnum (unicode L) ch) eqn:Ha; [by left|]. simpl.
  case_bool_decide as Hin; [|by repeat right].
  right. repeat (apply elem_of_cons in Hin as [->|Hin]; [tauto|]).
  by apply elem_of_nil in Hin.
Qed.

(** The body of [sanitize_filename], by the words of the filtered text. *)
Lemma sanitize_filename_unfold (L : PyLib) (text : Py.str) :
  sanitize_filename L text
  = match Py.split (map (replace_unsafe L) text) with
    | [] => py "youtube_video"
    | tokens => firstn 120 (Py.join (py "_") tokens)
    end.
Proof.
  unfold sanitize_filename.
  assert (Hmap : map (fun ch =>
                   if Py.isalnum (unicode L) ch
                      || bool_decide (ch ∈ [Py.SPACE; Py.DASH; Py.UNDERSCORE])
                   then [ch] else py "_") text
                 = map (fun ch => [replace_unsafe L ch]) text).
  { apply map_ext. intros ch. unfold replace_unsafe.
    by destruct (Py.isalnum (unicode L) ch || _). }
  rewrite Hmap, join_nil_singletons.
  pose proof (split_words (map (replace_unsafe L) text)) as Hw.
  rewrite filter_truthy_words by done.
  destruct (Py.split (map (replace_unsafe L) text)) as [|t toks] eqn:Hs; [done|].
  pose proof (join_words_nonempty (py "_") (t :: toks) Hw ltac:(done)) as Hne.
  destruct (Py.join (py "_") (t :: toks)) eqn:Hj; [done|].
  by rewrite slice_to_nonneg.
Qed.

(** C6: [sanitize_filename] is a total function; its result has at most
    120 characters, each alphanumeric, a space, a dash or an underscore; it
    is the first 120 characters of the whitespace-delimited words of the
    filtered text joined by single underscores, or ["youtube_video"] when
    there is no such word, as for the empty string. *)
Theorem sanitize_filename_spec (L : PyLib) (text : Py.str) :
  let out := sanitize_filename L text in
  let tokens := Py.split (map (replace_unsafe L) text) in
  (length out <= 120)%nat
  /\ Forall (filename_char L) out
  /\ Forall is_word tokens
  /\ out = match tokens with
           | [] => py "youtube_video"
           | _ => firstn 120 (Py.join (py "_") tokens)
           end
  /\ sanitize_filename L [] = py "youtube_video".
Proof.
  intros out tokens. subst out. rewrite sanitize_filename_unfold. fold tokens.
  pose proof (split_words (map (replace_unsafe L) text)) as Hw. fold tokens in Hw.
  assert (Hchars : Forall (Forall (filename_char L)) tokens).
  { apply split_go_Forall; [constructor|].
    apply Forall_forall. intros c Hc. apply list_elem_of_In, in_map_iff in Hc as (ch & <- & _).
    apply replace_unsafe_char. }
  clearbody tokens.
  split; [|split; [|split; [done|split; [by destruct tokens|reflexivity]]]].
  - destruct tokens; [vm_compute; lia|]. rewrite length_take. lia.
  - destruct tokens as [|t toks] eqn:Ht.
    + unfold filename_char, Py.isalnum. by repeat (constructor; [vm_compute; tauto|]).
    + apply Forall_take, join_Forall; [|done].
      constructor; [by repeat right|constructor].
Qed.

(** The characters and the non-emptiness of a sanitized name. *)
Lemma sanitize_filename_no_blank (L : PyLib) (text : Py.str) :
  sanitize_filename L text <> []
  /\ Forall (fun c => Py.isspace c = false) (sanitize_filename L text)
  /\ Forall (filename_char L) (sanitize_filename L text).
Proof.
  rewrite sanitize_filename_unfold.
  pose proof (split_words (map (replace_unsafe L) text)) as Hw.
  assert (Hchars : Forall (Forall (filename_char L))
                     (Py.split (map (replace_unsafe L) text))).
  { apply split_go_Forall; [constructor|].
    apply Forall_forall. intros c Hc.
    apply list_elem_of_In, in_map_iff in Hc as (ch & <- & _).
    apply replace_unsafe_char. }
  destruct (Py.split (map (replace_unsafe L) text)) as [|t toks].
  - split; [done|]. unfold filename_char, Py.isalnum.
    split; by repeat (constructor; [vm_compute; tauto|]).
  - assert (Hns : Forall (fun c => Py.isspace c = false)
                    (Py.join (py "_") (t :: toks))).
    { apply join_Forall; [by repeat constructor|].
      eapply Forall_impl; [exact Hw|]. by intros ? [_ ?]. }
    assert (Hfc : Forall (filename_char L) (Py.join (py "_") (t :: toks))).
    { apply join_Forall; [|done]. constructor; [by repeat right|constructor]. }
    split; [|split; by apply Forall_take].
    pose proof (join_words_nonempty (py "_") (t :: toks) Hw ltac:(done)) as Hne.
    by destruct (Py.join (py "_") (t :: toks)).
Qed.

(** C10: the result of [sanitize_filename] is never empty and holds no
    whitespace character: each of its characters is alphanumeric, a dash
    or an underscore. *)
Theorem sanitize_filename_no_whitespace (L : PyLib) (text : Py.str) :
  let out := sanitize_filename L text in
  out <> []
  /\ Forall (fun c => Py.isspace c = false) out
  /\ Forall (fun c => Py.isalnum (unicode L) c = true
                      \/ c = Py.DASH \/ c = Py.UNDERSCORE) out.
Proof.
  intros out. subst out.
  destruct (sanitize_filename_no_blank L text) as (Hne & Hns & Hfc).
  split; [done|]. split; [done|].
  pose proof (conj Hns Hfc) as Hboth. apply Forall_and in Hboth.
  eapply Forall_impl; [exact Hboth|].
  intros c [Hsp [Ha | [ -> | [ -> | -> ] ] ] ];
    [by left | done | by right; left | by right; right].
Qed.

Lemma rfind_char_app (ch : Z) (a b : Py.str) (i : nat) :
  Py.rfind_char ch b = Some i -> Py.rfind_char ch (a ++ b) = Some (length a + i)%nat.
Proof. intros Hb. induction a as [|c a IH]; [done|]. simpl. by rewrite IH. Qed.

(** The stem of the transcript file is the sanitized title, which names
    the four stage files of the run. *)
Lemma transcript_stem (L : PyLib) (title : Py.str) (dir : Path) :
  path_stem (dir // (sanitize_filename L title ++ py ".txt")) = sanitize_filename L title.
Proof.
  unfold path_stem, path_div. rewrite last_last.
  rewrite (rfind_char_app 46 _ (py ".txt") 0) by reflexivity.
  destruct (sanitize_filename_no_blank L title) as [Hne _].
  rewrite Nat.add_0_r, length_app.
  destruct (sanitize_filename L title) as [|c san]; [done|].
  change (length (py ".txt")) with 4%nat.
  replace ((0 <? length (c :: san))%nat) with true
    by (symmetry; apply Nat.ltb_lt; simpl; lia).
  replace ((length (c :: san) <? length (c :: san) + 4 - 1)%nat) with true
    by (symmetry; apply Nat.ltb_lt; simpl; lia).
  simpl andb. by rewrite take_app_length.
Qed.

(** ** Joining the transcript (claim C9) *)

Lemma join_entries_kept (entries : list TranscriptEntry) :
  join_entries entries = Py.join (py " ") (kept_texts entries).
Proof.
  unfold join_entries, kept_texts. f_equal.
  induction entries as [|[[[|c s]|]] entries IH]; [done| | |];
    cbn [omap list_omap entry_text Py.truthy].
  - by rewrite filter_cons_False by done.
  - rewrite filter_cons_True by done. cbn [map entry_text default from_option id]. by rewrite IH.
  - by rewrite filter_cons_False by done.
Qed.

Lemma strip_nil : Py.strip [] = [].
Proof. reflexivity. Qed.

Lemma kept_texts_no_blank (entries : list TranscriptEntry) :
  no_blank_text entries -> kept_texts entries = nonempty_stripped_texts entries.
Proof.
  unfold kept_texts, nonempty_stripped_texts.
  induction 1 as [|[[[|c s]|]] entries He _ IH]; [done| | |];
    cbn [omap list_omap map entry_text default from_option id Py.truthy].
  - by rewrite filter_cons_False by done.
  - specialize (He (c :: s) eq_refl ltac:(done)).
    rewrite filter_cons_True by (by destruct (Py.strip (c :: s))).
    by rewrite <- IH.
  - by rewrite filter_cons_False by done.
Qed.

(** C9, as stated, fails: an entry whose text is whitespace only passes
    the filter and contributes an empty piece, so the joined text has two
    spaces where the non-empty stripped fields joined by single spaces
    have one. *)
Lemma transcript_joining_counterexample :
  fetch_transcript_text (demo_externals hello_blank_world_entries) demo_url empty_world
  = (Ok (py "Hello  world"), empty_world)
  /\ Py.join (py " ") (nonempty_stripped_texts hello_blank_world_entries) = py "Hello world"
  /\ py "Hello  world" <> py "Hello world".
Proof. split; [reflexivity|]. split; [reflexivity|discriminate]. Qed.

(** C9 (amended): the transcript text is the stripped text of every entry
    whose text field is present and not empty, in entry order, joined with
    single spaces; it is the join of the non-empty stripped text fields
    whenever no entry has a whitespace-only text; entries ["Hello"] and
    ["world"] give ["Hello world"]. *)
Theorem transcript_joining_amended (E : Externals) (u video_id : Py.str)
    (entries : list TranscriptEntry) (w : World) :
  extract_video_id (lib E) u = Ok video_id ->
  api_entries (YouTubeTranscriptApi E) video_id = Ok entries ->
  fetch_transcript_text E u w = (Ok (Py.join (py " ") (kept_texts entries)), w)
  /\ (no_blank_text entries ->
      fetch_transcript_text E u w
      = (Ok (Py.join (py " ") (nonempty_stripped_texts entries)), w))
  /\ (entries = hello_world_entries ->
      fetch_transcript_text E u w = (Ok (py "Hello world"), w)).
Proof.
  intros Hid Hapi.
  assert (Hrun : fetch_transcript_text E u w
                 = (Ok (Py.join (py " ") (kept_texts entries)), w)).
  { unfold fetch_transcript_text, bind, lift, ret. rewrite Hid.
    unfold api_entries in Hapi.
    destruct (YouTubeTranscriptApi E); rewrite Hapi; by rewrite join_entries_kept. }
  split; [done|]. split.
  - intros Hnb. by rewrite Hrun, kept_texts_no_blank.
  - intros ->. by rewrite Hrun.
Qed.

Lemma transcript_joining_amended_witness :
  extract_video_id demo_lib demo_url = Ok (py "XYZ789")
  /\ api_entries (YouTubeTranscriptApi (demo_externals hello_world_entries)) (py "XYZ789")
     = Ok hello_world_entries
  /\ fetch_transcript_text (demo_externals hello_world_entries) demo_url empty_world
     = (Ok (py "Hello world"), empty_world).
Proof.
  split; [reflexivity|]. split; [reflexivity|].
  apply (transcript_joining_amended (demo_externals hello_world_entries) demo_url
           (py "XYZ789") hello_world_entries); reflexivity.
Defined.

(** ** The JSON serialisation *)

Lemma ltb_asym (a b : Py.str) : Py.ltb a b = true -> Py.ltb b a = false.
Proof.
  revert b. induction a as [|x a IH]; intros [|y b]; simpl; try done.
  intros H. apply orb_true_iff in H as [H|H].
  - apply Z.ltb_lt in H. apply orb_false_iff. split; [apply Z.ltb_ge; lia|].
    apply andb_false_iff. left. apply Z.eqb_neq. lia.
  - apply andb_true_iff in H as [Hxy H]. apply Z.eqb_eq in Hxy as ->.
    rewrite Z.ltb_irrefl, Z.eqb_refl. simpl. by apply IH.
Qed.

Lemma insert_item_perm {V} (kv : Py.str * V) (l : list (Py.str * V)) :
  Permutation (Json.insert_item kv l) (kv :: l).
Proof.
  induction l as [|h t IH]; simpl; [done|].
  destruct (Py.ltb (fst h) (fst kv)); [|done].
  rewrite IH. apply perm_swap.
Qed.

Lemma sort_items_perm {V} (l : list (Py.str * V)) : Permutation (Json.sort_items l) l.
Proof.
  induction l as [|kv l IH]; simpl; [done|]. by rewrite insert_item_perm, IH.
Qed.

Lemma insert_item_sorted {V} (kv : Py.str * V) (l : list (Py.str * V)) :
  Sorted key_le l -> Sorted key_le (Json.insert_item kv l).
Proof.
  induction 1 as [|h t Ht IH Hhd]; simpl; [by repeat constructor|].
  destruct (Py.ltb (fst h) (fst kv)) eqn:Hlt.
  - constructor; [done|].
    destruct Hhd as [|h2 t2 Hh2]; simpl.
    + constructor. by apply ltb_asym.
    + destruct (Py.ltb (fst h2) (fst kv)); constructor; [done|by apply ltb_asym].
  - constructor; [by constructor|]. by constructor.
Qed.

Lemma sort_items_sorted {V} (l : list (Py.str * V)) : Sorted key_le (Json.sort_items l).
Proof.
  induction l as [|kv l IH]; simpl; [constructor|]. by apply insert_item_sorted.
Qed.

Lemma hex_digit_printable (n : Z) : 0 <= n < 16 -> printable_ascii (Json.hex_digit n).
Proof.
  intros H. unfold Json.hex_digit, printable_ascii.
  destruct (Z.ltb_spec n 10); lia.
Qed.

Lemma u_escape_printable (n : Z) : Forall printable_ascii (Json.u_escape n).
Proof.
  unfold Json.u_escape.
  repeat (constructor; [first [by unfold printable_ascii
                              | apply hex_digit_printable, Z.mod_pos_bound; lia]|]).
  constructor.
Qed.

Lemma escape_char_printable (c : Z) : Forall printable_ascii (Json.escape_char c).
Proof.
  unfold Json.escape_char.
  repeat (case_match; [by repeat (constructor; [by unfold printable_ascii|])|]).
  case_match eqn:Hc.
  - apply andb_true_iff in Hc as [Hlo Hhi]. constructor; [|constructor].
    unfold printable_ascii. lia.
  - case_match; [apply u_escape_printable|].
    apply Forall_app. split; apply u_escape_printable.
Qed.

(** With [ensure_ascii] a string is rendered in printable ASCII. *)
Lemma encode_basestring_ascii_printable (s : Py.str) :
  Forall printable_ascii (Json.encode_basestring_ascii s).
Proof.
  unfold Json.encode_basestring_ascii.
  apply Forall_app. split; [by repeat constructor|].
  apply Forall_app. split; [|by repeat constructor].
  induction s as [|c s IH]; simpl; [constructor|].
  apply Forall_app. split; [apply escape_char_printable|done].
Qed.

(** The members of the serialised payload are those of the payload, in
    key order, joined by bare commas and colons. *)
Lemma stable_json_dumps_shape (payload : dict value) :
  exists members : list (Py.str * Py.str),
    Permutation members (map (fun kv => (fst kv, Json.dumps (snd kv))) payload)
    /\ Sorted key_le members
    /\ _stable_json_dumps payload
       = py "{"
         ++ Py.join (py ",")
              (map (fun kv => Json.encode_basestring_ascii (fst kv) ++ py ":" ++ snd kv)
                 members)
         ++ py "}".
Proof.
  exists (Json.sort_items (map (fun kv => match kv with (k, x) => (k, Json.dumps x) end) payload)).
  split; [|split; [apply sort_items_sorted|reflexivity]].
  rewrite sort_items_perm.
  assert (Hm : map (fun kv => match kv with (k, x) => (k, Json.dumps x) end) payload
               = map (fun kv => (fst kv, Json.dumps (snd kv))) payload).
  { apply map_ext. by intros [k x]. }
  by rewrite Hm.
Qed.

(** ** The passage of a payload (claim C8) *)

Lemma truthy_true (s : Py.str) : Py.truthy s = true <-> s <> [].
Proof. by destruct s. Qed.

Lemma extract_passage_loop_first (payload : dict value) (keys : list Py.str)
    (i : nat) (key v : Py.str) :
  keys !! i = Some key ->
  nonblank_at key payload v ->
  (forall j key' v', (j < i)%nat -> keys !! j = Some key' -> ~ nonblank_at key' payload v') ->
  extract_passage_loop keys payload = Some v.
Proof.
  revert i. induction keys as [|k keys IH]; intros i Hi [Hget Hnb] Hbefore; [done|].
  destruct i as [|i]; simpl in Hi.
  - injection Hi as ->. simpl. rewrite Hget.
    apply truthy_true in Hnb. by rewrite Hnb.
  - assert (Hk : forall v', ~ nonblank_at k payload v').
    { intros v'. apply (Hbefore 0%nat); [lia|done]. }
    assert (Hrest : extract_passage_loop keys payload = Some v).
    { apply (IH i); [done|done|]. intros j key' v' Hj Hkey'.
      apply (Hbefore (S j)); [lia|done]. }
    simpl. destruct (dict_get k payload) as [[| | |s| |]|] eqn:Hgetk; try done.
    destruct (Py.truthy (Py.strip s)) eqn:Hs; [|done].
    exfalso. apply (Hk s). split; [done|]. by apply truthy_true.
Qed.

Lemma extract_passage_loop_none (payload : dict value) (keys : list Py.str) :
  (forall key v, key ∈ keys -> ~ nonblank_at key payload v) ->
  extract_passage_loop keys payload = None.
Proof.
  induction keys as [|k keys IH]; intros Hno; [done|].
  assert (Hrest : extract_passage_loop keys payload = None).
  { apply IH. intros key v Hin. apply Hno. by right. }
  simpl. destruct (dict_get k payload) as [[| | |s| |]|] eqn:Hgetk; try done.
  destruct (Py.truthy (Py.strip s)) eqn:Hs; [|done].
  exfalso. apply (Hno k s); [by left|]. split; [done|]. by apply truthy_true.
Qed.

(** C8, as stated, fails: a string of whitespace is not empty, yet the
    adapter passes over it and sends the value of the next key. *)
Lemma extract_passage_counterexample :
  first_nonempty_string passage_keys blank_transcript_payload = Some (py " ")
  /\ _extract_passage blank_transcript_payload = py "x"
  /\ py " " <> py "x".
Proof. split; [reflexivity|]. split; [reflexivity|discriminate]. Qed.

(** C8 (amended): the transmitted passage is the value, as it is, of the
    first key among transcript, passage, text, content (in this order)
    whose value is a string that is not empty once stripped of whitespace;
    if there is no such key it is the JSON serialisation of the whole
    payload: its members in key order, joined by bare commas and colons,
    its strings rendered in printable ASCII. *)
Theorem extract_passage_amended (payload : dict value) :
  passage_keys = [py "transcript"; py "passage"; py "text"; py "content"]
  /\ (forall (i : nat) (key v : Py.str),
        passage_keys !! i = Some key ->
        nonblank_at key payload v ->
        (forall j key' v', (j < i)%nat -> passage_keys !! j = Some key' ->
                           ~ nonblank_at key' payload v') ->
        _extract_passage payload = v)
  /\ ((forall key v, key ∈ passage_keys -> ~ nonblank_at key payload v) ->
      _extract_passage payload = _stable_json_dumps payload
      /\ exists members : list (Py.str * Py.str),
           Permutation members (map (fun kv => (fst kv, Json.dumps (snd kv))) payload)
           /\ Sorted key_le members
           /\ Forall (fun kv => Forall printable_ascii (Json.encode_basestring_ascii (fst kv)))
                members
           /\ _stable_json_dumps payload
              = py "{"
                ++ Py.join (py ",")
                     (map (fun kv => Json.encode_basestring_ascii (fst kv) ++ py ":" ++ snd kv)
                        members)
                ++ py "}").
Proof.
  split; [reflexivity|]. split.
  - intros i key v Hi Hnb Hbefore. unfold _extract_passage.
    by rewrite (extract_passage_loop_first payload passage_keys i key v).
  - intros Hno. unfold _extract_passage.
    rewrite (extract_passage_loop_none payload passage_keys Hno).
    split; [done|].
    destruct (stable_json_dumps_shape payload) as (members & Hperm & Hsorted & Heq).
    exists members. split; [done|]. split; [done|]. split; [|done].
    apply Forall_forall. intros kv _. apply encode_basestring_ascii_printable.
Qed.

Lemma extract_passage_amended_witness :
  passage_keys !! 1%nat = Some (py "passage")
  /\ nonblank_at (py "passage") blank_transcript_payload (py "x")
  /\ _extract_passage blank_transcript_payload = py "x".
Proof.
  assert (Hnb : nonblank_at (py "passage") blank_transcript_payload (py "x")).
  { split; [reflexivity|discriminate]. }
  split; [reflexivity|]. split; [exact Hnb|].
  apply (proj1 (proj2 (extract_passage_amended blank_transcript_payload))
           1%nat (py "passage") (py "x")); [reflexivity|exact Hnb|].
  intros j key' v' Hj Hkey [Hget Hstrip].
  destruct j as [|j]; [|lia].
  injection Hkey as <-. vm_compute in Hget. injection Hget as <-.
  by apply Hstrip.
Defined.

(** ** The prompt-cache key (claim C2) *)

Lemma utf8_encode_printable (s : Py.str) :
  Forall printable_ascii s -> Codecs.utf8_encode s = Ok s.
Proof.
  induction 1 as [|c s Hc _ IH]; [done|].
  simpl. rewrite IH. unfold Codecs.utf8_encode_char, printable_ascii in *.
  destruct (Z.ltb_spec c 128); [done|lia].
Qed.

Lemma passage_json_shape (passage : Py.str) :
  _stable_json_dumps [(py "passage", VStr passage)]
  = py "{" ++ Json.encode_basestring_ascii (py "passage") ++ py ":"
    ++ Json.encode_basestring_ascii passage ++ py "}".
Proof.
  unfold _stable_json_dumps. cbn [Json.dumps map Json.sort_items foldr Json.insert_item
                                   Py.join fst snd].
  by rewrite <- !app_assoc.
Qed.

Lemma passage_json_printable (passage : Py.str) :
  Forall printable_ascii (_stable_json_dumps [(py "passage", VStr passage)]).
Proof.
  rewrite passage_json_shape.
  apply Forall_app; split; [by repeat constructor|].
  apply Forall_app; split; [apply encode_basestring_ascii_printable|].
  apply Forall_app; split; [by repeat constructor|].
  apply Forall_app; split; [apply encode_basestring_ascii_printable|].
  by repeat constructor.
Qed.

Lemma crc32_u32_passage_json (passage : Py.str) :
  _crc32_u32 (_stable_json_dumps [(py "passage", VStr passage)])
  = Ok (Zlib.crc32 (_stable_json_dumps [(py "passage", VStr passage)]) mod 2 ^ 32).
Proof.
  unfold _crc32_u32. rewrite utf8_encode_printable by apply passage_json_printable.
  simpl exc_bind. f_equal. change 4294967295 with (Z.ones 32).
  by rewrite Z.land_ones.
Qed.

Lemma shard_of_passage_json (C : CacheConfig) (passage : Py.str) :
  shard_of C (_stable_json_dumps [(py "passage", VStr passage)]) = Ok (shard_index C passage).
Proof.
  unfold shard_of, shard_index.
  destruct (Z.ltb_spec 1 (PROMPT_CACHE_SHARDS C)), (Z.leb_spec (PROMPT_CACHE_SHARDS C) 1);
    try lia; [|done].
  by rewrite crc32_u32_passage_json.
Qed.

Lemma prompt_cache_key_of_eq (C : CacheConfig) (payload : dict value) (model_name : Py.str) :
  prompt_cache_key_of C payload model_name
  = Ok (PROMPT_VERSION C ++ py ":" ++ chosen_model_of model_name ++ py ":shard-"
        ++ Py.repr_int (shard_index C (_extract_passage payload))).
Proof. unfold prompt_cache_key_of. by rewrite shard_of_passage_json. Qed.

(** C2: the cache key of the adapter is
    ["{promptVersion}:{resolvedModel}:shard-{shardIndex}"], where the shard
    index is zero when the shard count is at most one and otherwise the
    unsigned 32-bit CRC-32 of the serialisation of [{"passage": passage}]
    modulo the shard count (so it lies below the shard count); the
    serialisation is ASCII and is its own UTF-8 encoding; and every call
    of [invoke_llm] with this configuration, payload and model derives
    this same key, whatever the world, the system prompt and the retention,
    and sends it when the retention is positive. *)
Theorem prompt_cache_key_derivation (C : CacheConfig) (payload : dict value)
    (model_name : Py.str) :
  let passage := _extract_passage payload in
  let serialized := _stable_json_dumps [(py "passage", VStr passage)] in
  let shardIndex :=
    if PROMPT_CACHE_SHARDS C <=? 1 then 0
    else (Zlib.crc32 serialized mod 2 ^ 32) mod PROMPT_CACHE_SHARDS C in
  let key := PROMPT_VERSION C ++ py ":" ++ chosen_model_of model_name ++ py ":shard-"
             ++ Py.repr_int shardIndex in
  prompt_cache_key_of C payload model_name = Ok key
  /\ 0 <= shardIndex
  /\ (1 < PROMPT_CACHE_SHARDS C -> shardIndex < PROMPT_CACHE_SHARDS C)
  /\ Codecs.utf8_encode serialized = Ok serialized
  /\ (forall (E : Externals) (system_prompt : Py.str) (retention : option Z) (w : World)
             (c : Z) (k : Py.str),
        cache_config E = C ->
        OPENAI_API_KEY E = Some (c :: k) ->
        exists request,
          llm_log (snd (invoke_llm E system_prompt payload model_name retention w))
          = llm_log w ++ [ {| call_system_prompt := system_prompt;
                              call_user_payload := payload;
                              call_model_name := model_name;
                              call_request := request |} ]
          /\ rq_invoke_cache request
             = (if 0 <? effective_retention C retention
                then Some (key, effective_retention C retention) else None)).
Proof.
  intros passage serialized shardIndex key.
  assert (Hidx : shardIndex = shard_index C passage) by reflexivity.
  split; [apply prompt_cache_key_of_eq|].
  split; [|split; [|split]].
  - subst shardIndex. destruct (Z.leb_spec (PROMPT_CACHE_SHARDS C) 1); [done|].
    apply Z.mod_pos_bound. lia.
  - intros Hs. subst shardIndex.
    destruct (Z.leb_spec (PROMPT_CACHE_SHARDS C) 1); [lia|].
    apply Z.mod_pos_bound. lia.
  - apply utf8_encode_printable, passage_json_printable.
  - intros E system_prompt retention w c k HC Hkey.
    unfold invoke_llm. rewrite Hkey, HC, prompt_cache_key_of_eq.
    unfold bind, lift. cbn [snd llm_log]. eexists. split; [reflexivity|].
    cbn [rq_invoke_cache]. unfold effective_retention. done.
Qed.

Lemma prompt_cache_key_derivation_witness :
  cache_config (demo_externals hello_world_entries) = demo_config
  /\ OPENAI_API_KEY (demo_externals hello_world_entries) = Some (py "sk-demo")
  /\ prompt_cache_key_of demo_config [(py "transcript", VStr (py "hello"))] (py "gpt5-low")
     = Ok (py "v1:gpt-5:shard-4")
  /\ exists request,
       llm_log (snd (invoke_llm (demo_externals hello_world_entries) (py "system")
                       [(py "transcript", VStr (py "hello"))] (py "gpt5-low") None
                       empty_world))
       = [ {| call_system_prompt := py "system";
              call_user_payload := [(py "transcript", VStr (py "hello"))];
              call_model_name := py "gpt5-low";
              call_request := request |} ]
       /\ rq_invoke_cache request = Some (py "v1:gpt-5:shard-4", 300).
Proof.
  split; [reflexivity|]. split; [reflexivity|]. split; [reflexivity|].
  destruct (proj2 (proj2 (proj2 (proj2
              (prompt_cache_key_derivation demo_config
                 [(py "transcript", VStr (py "hello"))] (py "gpt5-low")))))
              (demo_externals hello_world_entries) (py "system") None empty_world
              115 (py "k-demo") eq_refl eq_refl) as (request & Hlog & Hcache).
  exists request. split; [exact Hlog|exact Hcache].
Defined.

(** ** The video identifier (claim C7) *)

Lemma dict_append_nonempty (name v : Py.str) (d : dict (list Py.str)) :
  Forall (fun kv => snd kv <> []) d ->
  Forall (fun kv => snd kv <> []) (Urllib.dict_append name v d).
Proof.
  induction 1 as [|[k vs] d Hk Hd IH]; simpl.
  - by repeat constructor.
  - destruct (Py.eqb k name); constructor; try done.
    simpl in *. by destruct vs.
Qed.

Lemma dict_get_Forall {V} (P : Py.str * V -> Prop) (key : Py.str) (d : dict V) (v : V) :
  Forall P d -> dict_get key d = Some v -> exists k, P (k, v).
Proof.
  induction 1 as [|[k x] d Hk Hd IH]; simpl; [done|].
  destruct (Py.eqb k key); [|done]. intros [= <-]. by exists k.
Qed.

(** Every name of [parse_qs] has at least one value, so indexing the
    values at zero never fails. *)
Lemma parse_qs_values_nonempty (U : Py.UnicodeData) (qs key : Py.str) (values : list Py.str) :
  dict_get key (Urllib.parse_qs U qs) = Some values -> values <> [].
Proof.
  unfold Urllib.parse_qs. intros Hget.
  assert (Hall : forall l d, Forall (fun kv : Py.str * list Py.str => snd kv <> []) d ->
            Forall (fun kv : Py.str * list Py.str => snd kv <> [])
              (fold_left (fun d nv => Urllib.dict_append (fst nv) (snd nv) d) l d)).
  { induction l as [|nv l IH]; intros d Hd; simpl; [done|].
    apply IH. by apply dict_append_nonempty. }
  destruct (dict_get_Forall _ _ _ _ (Hall (Urllib.parse_qsl U qs) [] ltac:(constructor)) Hget)
    as [k Hk].
  exact Hk.
Qed.

Lemma split_on_absent (ch : Z) (s : Py.str) :
  Py.contains ch s = false -> Py.split_on ch s = [s].
Proof.
  induction s as [|c s IH]; [done|]. simpl.
  rewrite orb_false_iff, Z.eqb_sym. intros [-> Hs]. by rewrite IH.
Qed.

Lemma replace_char_absent (a b : Z) (s : Py.str) :
  Py.contains a s = false -> Py.replace_char a b s = s.
Proof.
  induction s as [|c s IH]; [done|]. simpl.
  rewrite orb_false_iff, Z.eqb_sym. intros [-> Hs]. by rewrite IH.
Qed.

(** A query made of one plain [v=value] field has the parameter [v] with
    this one value. *)
Lemma parse_qs_single_v (U : Py.UnicodeData) (val : Py.str) :
  val <> [] ->
  Py.contains 38 val = false -> Py.contains 43 val = false ->
  Py.contains 37 val = false ->
  Urllib.parse_qs U (py "v=" ++ val) = [(py "v", [val])].
Proof.
  intros Hne Hamp Hplus Hpct. unfold Urllib.parse_qs, Urllib.parse_qsl.
  rewrite split_on_absent by done. cbn [flat_map app].
  change (py "v=" ++ val) with (118 :: 61 :: val).
  cbn [Py.truthy negb Py.partition Py.find_char Z.eqb Pos.eqb option_map firstn skipn].
  rewrite drop_0. destruct val as [|c val]; [done|]. cbn [Py.truthy].
  rewrite (replace_char_absent 43 32 (c :: val)) by done.
  unfold Urllib.unquote. rewrite Hpct. reflexivity.
Qed.

(** C7: on a URL that parses, a host [youtu.be] gives the path without its
    leading slashes (the path without its slash, when it begins with
    one slash only); a host among [www.youtube.com], [youtube.com],
    [m.youtube.com] with a [v] among the parsed query parameters gives the
    first value of [v], which for a query made of one plain [v=value]
    field is that value; any other host, and one of these hosts without a
    [v] parameter, fails with the unsupported-URL error; and the three
    example URLs behave as announced. *)
Theorem video_id_extraction (L : PyLib) (u : Py.str) (parsed : Urllib.ParseResult) :
  Urllib.urlparse (url_checks L) u = Ok parsed ->
  let host := Urllib.hostname (unicode L) parsed in
  let query := Urllib.parse_qs (unicode L) (Urllib.query parsed) in
  (host = Some (py "youtu.be") ->
     extract_video_id L u = Ok (Py.lstrip_char Py.SLASH (Urllib.path parsed))
     /\ (forall c rest, Urllib.path parsed = Py.SLASH :: c :: rest -> c <> Py.SLASH ->
           extract_video_id L u = Ok (c :: rest)))
  /\ (host ∈ youtube_hosts ->
      (forall values, dict_get (py "v") query = Some values ->
         exists v0 rest, values = v0 :: rest /\ extract_video_id L u = Ok v0)
      /\ (forall val, Urllib.query parsed = py "v=" ++ val -> val <> [] ->
            Py.contains 38 val = false -> Py.contains 43 val = false ->
            Py.contains 37 val = false ->
            extract_video_id L u = Ok val))
  /\ (host <> Some (py "youtu.be") ->
      host ∉ youtube_hosts \/ dict_get (py "v") query = None ->
      extract_video_id L u = Raise (UnsupportedURL u))
  /\ extract_video_id L (py "https://www.youtube.com/watch?v=ABC123") = Ok (py "ABC123")
  /\ extract_video_id L (py "https://youtu.be/XYZ789") = Ok (py "XYZ789")
  /\ extract_video_id L (py "https://example.com/watch?v=ABC")
     = Raise (UnsupportedURL (py "https://example.com/watch?v=ABC")).
Proof.
  intros Hparse host query.
  assert (Hunfold : extract_video_id L u
    = if bool_decide (host ∈ [Some (py "youtu.be")])
      then Ok (Py.lstrip_char Py.SLASH (Urllib.path parsed))
      else if bool_decide (host ∈ youtube_hosts)
      then if dict_mem (py "v") query
           then match dict_get (py "v") query with
                | Some (v0 :: _) => Ok v0
                | Some [] => Raise IndexError
                | None => Raise (KeyError (py "v"))
                end
           else Raise (UnsupportedURL u)
      else Raise (UnsupportedURL u)).
  { unfold extract_video_id. rewrite Hparse. reflexivity. }
  split; [|split; [|split]].
  - intros Hhost. rewrite Hunfold, Hhost.
    rewrite bool_decide_eq_true_2 by (by left).
    split; [done|]. intros c rest -> Hc. cbn [Py.lstrip_char].
    rewrite Z.eqb_refl. apply Z.eqb_neq in Hc. by rewrite Hc.
  - intros Hhost.
    assert (Hnot : bool_decide (host ∈ [Some (py "youtu.be")]) = false).
    { apply bool_decide_eq_false_2. intros Hin.
      apply list_elem_of_singleton in Hin. rewrite Hin in Hhost.
      vm_compute in Hhost. by repeat (apply elem_of_cons in Hhost as [Hhost|Hhost]; [done|]);
        apply elem_of_nil in Hhost. }
    assert (Hfirst : forall values, dict_get (py "v") query = Some values ->
              exists v0 rest, values = v0 :: rest /\ extract_video_id L u = Ok v0).
    { intros values Hget.
      pose proof (parse_qs_values_nonempty _ _ _ _ Hget) as Hne.
      destruct values as [|v0 rest]; [done|]. exists v0, rest. split; [done|].
      rewrite Hunfold, Hnot.
      rewrite bool_decide_eq_true_2 by done. unfold dict_mem. by rewrite Hget. }
    split; [exact Hfirst|].
    intros val Hq Hne Hamp Hplus Hpct.
    destruct (Hfirst [val]) as (v0 & rest & [= <- <-] & Hrun); [|done].
    subst query. rewrite Hq. by rewrite parse_qs_single_v.
  - intros Hnot Hcase. rewrite Hunfold.
    rewrite bool_decide_eq_false_2 by (by intros Hin%list_elem_of_singleton).
    destruct Hcase as [Hout|Hnone].
    + by rewrite bool_decide_eq_false_2.
    + destruct (bool_decide (host ∈ youtube_hosts)); [|done].
      unfold dict_mem. by rewrite Hnone.
  - split; [reflexivity|]. split; reflexivity.
Qed.

Lemma video_id_extraction_witness :
  Urllib.urlparse (url_checks demo_lib) (py "https://youtu.be/XYZ789")
  = Ok {| Urllib.scheme := py "https"; Urllib.netloc := py "youtu.be";
          Urllib.path := py "/XYZ789"; Urllib.params := [];
          Urllib.query := []; Urllib.fragment := [] |}
  /\ extract_video_id demo_lib (py "https://youtu.be/XYZ789") = Ok (py "XYZ789").
Proof.
  split; [reflexivity|].
  exact (proj1 (proj1 (video_id_extraction demo_lib (py "https://youtu.be/XYZ789") _ eq_refl)
                  eq_refl)).
Defined.

(** ** Stage-output caching (claim C1) *)

Lemma path_div_inj (p q : Path) (a b : Py.str) : p // a = q // b -> p = q /\ a = b.
Proof. unfold path_div. intros H. by apply app_inj_tail in H. Qed.

Lemma transcript_not_output (E : Externals) (a b : Py.str) :
  transcript_dir E // a <> output_dir E // b.
Proof.
  unfold transcript_dir, output_dir. intros H.
  apply path_div_inj in H as [H _]. apply path_div_inj in H as [_ H]. discriminate.
Qed.

Lemma output_paths_distinct (stem : Py.str) (dir : Path) :
  NoDup [ op_passage (build_output_paths stem dir);
          op_corrected (build_output_paths stem dir);
          op_translated (build_output_paths stem dir);
          op_dialogue (build_output_paths stem dir) ].
Proof.
  assert (Hne : forall a b, a <> b -> dir // (stem ++ a) <> dir // (stem ++ b)).
  { intros a b Hab H. apply path_div_inj in H as [_ H]. by apply app_inv_head in H. }
  unfold build_output_paths. cbn [op_passage op_corrected op_translated op_dialogue].
  repeat (apply NoDup_cons_2;
          [rewrite ?elem_of_cons, elem_of_nil;
           intros Hin; repeat (destruct Hin as [Hin|Hin]; [by eapply Hne, Hin|]); done |]).
  apply NoDup_nil_2.
Qed.

Lemma bind_run {A B} (m : M A) (k : A -> M B) (w : World) :
  bind m k w = match m w with
               | (Ok a, w') => k a w'
               | (Raise e, w') => (Raise e, w')
               end.
Proof. reflexivity. Qed.

Section Pipeline.

Context (E : Externals).

(** A call of [invoke_llm] leaves the files alone and makes at most one
    call to the provider, with the payload it was given. *)
Lemma invoke_llm_effect (system_prompt : Py.str) (payload : dict value)
    (model_name : Py.str) (retention : option Z) (w : World) :
  let w' := snd (invoke_llm E system_prompt payload model_name retention w) in
  fs w' = fs w
  /\ exists calls, llm_log w' = llm_log w ++ calls
       /\ Forall (fun c => call_user_payload c = payload) calls.
Proof.
  unfold invoke_llm.
  destruct (OPENAI_API_KEY E) as [[|c k]|]; cbn [raise snd];
    try (split; [done|]; exists []; by rewrite app_nil_r).
  rewrite bind_run. unfold lift. rewrite prompt_cache_key_of_eq. cbn [snd fs llm_log].
  split; [done|]. eexists. split; [reflexivity|]. by repeat constructor.
Qed.

Lemma load_prompt_world (name : Py.str) (w : World) :
  snd (load_prompt E name w) = w.
Proof.
  unfold load_prompt. rewrite bind_run. unfold path_exists. cbn iota.
  destruct (bool_decide _); cbn [negb]; [|done].
  rewrite bind_run. unfold load_text. by destruct (fs w !! _).
Qed.

(** An agent leaves the files alone, and its calls carry its task. *)
Lemma agent_effect (name task : Py.str) (rest : dict value)
    (model_name : Py.str) (w : World) :
  let run := (system_prompt <- load_prompt E name ;;
              invoke_llm E system_prompt ((py "task", VStr task) :: rest) model_name None)%M in
  fs (snd (run w)) = fs w
  /\ exists calls, llm_log (snd (run w)) = llm_log w ++ calls /\ task_calls task calls.
Proof.
  intros run. subst run. rewrite bind_run.
  pose proof (load_prompt_world name w) as Hw.
  destruct (load_prompt E name w) as [[sp|e] w1]; simpl in Hw; subst w1.
  - destruct (invoke_llm_effect sp ((py "task", VStr task) :: rest) model_name None w)
      as (Hfs & calls & Hlog & Hcalls).
    split; [done|]. exists calls. split; [done|].
    eapply Forall_impl; [exact Hcalls|]. intros c Hc. unfold call_task. by rewrite Hc.
  - split; [done|]. exists []. split; [by rewrite app_nil_r|constructor].
Qed.

Lemma stage_step_refl (p : Path) (w : World) : stage_step p [] w w.
Proof. split; [done|]. split; [done|]. by rewrite app_nil_r. Qed.

Lemma stage_step_preserves (p q : Path) (calls : list LlmCall) (w w' : World) (txt : Py.str) :
  stage_step p calls w w' -> fs w !! q = Some txt -> fs w' !! q = Some txt.
Proof.
  intros (Hframe & Hhit & _) Hq. destruct (decide (q = p)) as [->|Hne].
  - by rewrite (Hhit (mk_is_Some _ _ Hq)).
  - by rewrite Hframe.
Qed.

(** A file that exists is carried through any number of stages. *)
Ltac carry :=
  first [eassumption | eapply stage_step_preserves; [eassumption | carry]].

Lemma stage_step_hit (p : Path) (calls : list LlmCall) (w w' : World) :
  stage_step p calls w w' -> is_Some (fs w !! p) -> calls = [].
Proof.
  intros (_ & Hhit & Hlog) Hp. rewrite (Hhit Hp) in Hlog.
  rewrite <- (app_nil_r (llm_log w)) in Hlog at 1. by apply app_inv_head in Hlog.
Qed.

(** The passage stage never fails. *)
Lemma passage_block_spec (p : Path) (passage : Py.str) (w : World) :
  exists s w',
    passage_block p passage w = (Ok s, w')
    /\ stage_step p [] w w'
    /\ fs w' !! p = Some s
    /\ (forall txt, fs w !! p = Some txt -> s = txt).
Proof.
  unfold passage_block. rewrite bind_run. unfold path_exists. cbn iota.
  destruct (fs w !! p) as [txt|] eqn:Hp.
  - rewrite bool_decide_eq_true_2 by done. unfold load_text. rewrite Hp.
    exists txt, w. split; [done|]. split; [apply stage_step_refl|].
    split; [done|]. by intros ? [= <-].
  - rewrite bool_decide_eq_false_2 by (by intros [? ?]).
    rewrite bind_run. unfold save_text, ret.
    eexists _, _. split; [reflexivity|]. cbn [fs llm_log].
    split; [|split; [by rewrite lookup_insert_eq|done]].
    split; [|split].
    + intros q Hq. cbn [fs]. by rewrite lookup_insert_ne.
    + rewrite Hp. by intros [? ?].
    + cbn [llm_log]. by rewrite app_nil_r.
Qed.

Lemma save_stage_answer_spec (p : Path) (answer : LlmContent) (w : World) :
  (exists e, save_stage_answer p answer w = (Raise e, w))
  \/ (exists s, save_stage_answer p answer w
                = (Ok s, {| fs := <[p := s]> (fs w); llm_log := llm_log w |})).
Proof.
  destruct answer as [s|blocks]; simpl.
  - right. by exists s.
  - rewrite bind_run. unfold lift.
    destruct (first_block_text blocks) as [[| | |s| |]|e]; try (left; by eexists).
    right. by exists s.
Qed.

(** A stage that asks an agent: a file that exists is returned and the
    world is left as it is; otherwise only the file of the stage is
    written, with the text the stage returns. *)
Lemma stage_block_spec (p : Path) (run : M LlmContent) (task : Py.str) (w : World) :
  (forall w1, fs (snd (run w1)) = fs w1
     /\ exists calls, llm_log (snd (run w1)) = llm_log w1 ++ calls /\ task_calls task calls) ->
  exists calls,
    stage_step p calls w (snd (stage_block p run w))
    /\ task_calls task calls
    /\ (forall txt, fs w !! p = Some txt -> stage_block p run w = (Ok txt, w))
    /\ (forall s, fst (stage_block p run w) = Ok s ->
          fs (snd (stage_block p run w)) !! p = Some s).
Proof.
  intros Hrun. unfold stage_block. rewrite bind_run. unfold path_exists. cbn iota.
  destruct (fs w !! p) as [txt|] eqn:Hp.
  - rewrite bool_decide_eq_true_2 by done. unfold load_text. rewrite Hp.
    exists []. cbn [fst snd]. split; [apply stage_step_refl|].
    split; [constructor|]. split; [by intros ? [= <-]|by intros ? [= <-]].
  - rewrite bool_decide_eq_false_2 by (by intros [? ?]).
    rewrite bind_run. destruct (Hrun w) as (Hfs & calls & Hlog & Htask).
    exists calls. split; [|split; [done|split; [done|]]].
    + destruct (run w) as [[answer|e] w1]; cbn [snd] in *.
      * destruct (save_stage_answer_spec p answer w1) as [[e He]|[s Hs]].
        -- rewrite He. cbn [snd]. split; [by rewrite Hfs|].
           split; [rewrite Hp; by intros [? ?]|done].
        -- rewrite Hs. cbn [snd fs llm_log]. split.
           ++ intros q Hq. simpl. rewrite lookup_insert_ne by congruence. by rewrite Hfs.
           ++ split; [rewrite Hp; by intros [? ?]|done].
      * split; [by rewrite Hfs|]. split; [rewrite Hp; by intros [? ?]|done].
    + destruct (run w) as [[answer|e] w1]; cbn [fst snd]; [|done].
      destruct (save_stage_answer_spec p answer w1) as [[e He]|[s Hs]].
      * by rewrite He.
      * rewrite Hs. cbn [fst snd fs]. intros ? [= <-]. by rewrite lookup_insert_eq.
Qed.

(** The video agent reads the world only to write the transcript: its
    result is the same in every world. *)
Lemma video_agent_spec (u : Py.str) (w w0 : World)
    (vp tp : Path) (tt : Py.str) :
  VideoTranscriptAgent_run E (video_dir E) (transcript_dir E) u w = (Ok (vp, tp, tt), w0) ->
  (exists name, tp = transcript_dir E // name)
  /\ forall w2,
       VideoTranscriptAgent_run E (video_dir E) (transcript_dir E) u w2
       = (Ok (vp, tp, tt), {| fs := <[tp := tt]> (fs w2); llm_log := llm_log w2 |}).
Proof.
  unfold VideoTranscriptAgent_run, download_video, fetch_transcript_text,
    bind, lift, ret, raise, save_text.
  destruct (YouTube E u) as [yt|e]; [|done].
  destruct (yt_first_stream yt) as [download|]; [|done].
  destruct (download (video_dir E)) as [video_path|e]; [|done].
  destruct (extract_video_id (lib E) u) as [video_id|e]; [|done].
  destruct (YouTubeTranscriptApi E) as [get|get];
    (destruct (get video_id) as [entries|e]; [|done]);
    intros [= <- <- <- <-]; (split; [by eexists|]); intros w2; reflexivity.
Qed.

(** [main] by its stages. *)
Lemma main_blocks (args : Args) :
  main E args
  = (vtt <- VideoTranscriptAgent_run E (video_dir E) (transcript_dir E) (url args) ;;
     let '(video_path, transcript_path, transcript_text) := vtt in
     let paths := build_output_paths (path_stem transcript_path) (output_dir E) in
     passage <- passage_block (op_passage paths)
                  (extract_transcript_passage transcript_text (passage_chars args)) ;;
     corrected <- stage_block (op_corrected paths)
                    (TranscriptCorrectionAgent_run E passage (model args)) ;;
     translated <- stage_block (op_translated paths)
                     (TranslationAgent_run E corrected (model args)) ;;
     dialogue <- stage_block (op_dialogue paths)
                   (DialogueAgent_run E translated (model args)) ;;
     ret {| r_video_path := video_path;
            r_transcript_path := transcript_path;
            r_output_paths := paths;
            r_passage := passage;
            r_corrected := corrected;
            r_translated := translated;
            r_dialogue := dialogue |})%M.
Proof. reflexivity. Qed.

(** A run of [main] after the video agent, stage by stage: a failing run
    stops, and the stages it does not reach leave the world as it is. *)
Lemma main_chain (args : Args) (w w0 : World)
    (vp tp : Path) (tt : Py.str) :
  VideoTranscriptAgent_run E (video_dir E) (transcript_dir E) (url args) w
  = (Ok (vp, tp, tt), w0) ->
  let paths := build_output_paths (path_stem tp) (output_dir E) in
  exists w1 w2 w3 calls_c calls_t calls_d,
    stage_step (op_passage paths) [] w0 w1
    /\ stage_step (op_corrected paths) calls_c w1 w2
    /\ stage_step (op_translated paths) calls_t w2 w3
    /\ stage_step (op_dialogue paths) calls_d w3 (snd (main E args w))
    /\ task_calls (py "correct_transcript") calls_c
    /\ task_calls (py "translate_transcript") calls_t
    /\ task_calls (py "dialogue_conversion") calls_d
    /\ (forall r, fst (main E args w) = Ok r ->
          r_video_path r = vp /\ r_transcript_path r = tp /\ r_output_paths r = paths
          /\ fs w1 !! op_passage paths = Some (r_passage r)
          /\ fs w2 !! op_corrected paths = Some (r_corrected r)
          /\ fs w3 !! op_translated paths = Some (r_translated r)
          /\ fs (snd (main E args w)) !! op_dialogue paths = Some (r_dialogue r))
    /\ (is_Some (fs w1 !! op_corrected paths) ->
        is_Some (fs w2 !! op_translated paths) ->
        is_Some (fs w3 !! op_dialogue paths) ->
        exists r, fst (main E args w) = Ok r).
Proof.
  intros Hagent paths. rewrite main_blocks, bind_run, Hagent. cbn zeta iota. fold paths.
  destruct (passage_block_spec (op_passage paths)
              (extract_transcript_passage tt (passage_chars args)) w0)
    as (ps & w1 & Hpb & Hstep1 & Hps & _).
  rewrite bind_run, Hpb.
  destruct (stage_block_spec (op_corrected paths)
              (TranscriptCorrectionAgent_run E ps (model args))
              (py "correct_transcript") w1
              (fun w => agent_effect _ _ _ _ w))
    as (calls_c & Hstep2 & Htask2 & Hhit2 & Hok2).
  rewrite bind_run.
  destruct (stage_block (op_corrected paths) _ w1) as [[cs|e] w2] eqn:Hc;
    cbn [fst snd] in *.
  2:{ exists w1, w2, w2, calls_c, [], [].
      do 8 (split; [first [done | apply stage_step_refl | constructor]|]).
      intros [txt Htxt] _ _. discriminate (Hhit2 txt Htxt). }
  destruct (stage_block_spec (op_translated paths)
              (TranslationAgent_run E cs (model args))
              (py "translate_transcript") w2
              (fun w => agent_effect _ _ _ _ w))
    as (calls_t & Hstep3 & Htask3 & Hhit3 & Hok3).
  rewrite bind_run.
  destruct (stage_block (op_translated paths) _ w2) as [[ts|e] w3] eqn:Ht;
    cbn [fst snd] in *.
  2:{ exists w1, w2, w3, calls_c, calls_t, [].
      do 8 (split; [first [done | apply stage_step_refl | constructor]|]).
      intros _ [txt Htxt] _. discriminate (Hhit3 txt Htxt). }
  destruct (stage_block_spec (op_dialogue paths)
              (DialogueAgent_run E ts (model args))
              (py "dialogue_conversion") w3
              (fun w => agent_effect _ _ _ _ w))
    as (calls_d & Hstep4 & Htask4 & Hhit4 & Hok4).
  rewrite bind_run.
  destruct (stage_block (op_dialogue paths) _ w3) as [[ds|e] w4] eqn:Hd;
    cbn [fst snd] in *.
  2:{ exists w1, w2, w3, calls_c, calls_t, calls_d.
      do 8 (split; [first [done | apply stage_step_refl | constructor]|]).
      intros _ _ [txt Htxt]. discriminate (Hhit4 txt Htxt). }
  exists w1, w2, w3, calls_c, calls_t, calls_d.
  do 7 (split; [done|]).
  split; [|intros _ _ _; by eexists].
  intros r [= <-]. cbn [r_video_path r_transcript_path r_output_paths r_passage
                        r_corrected r_translated r_dialogue].
  repeat (split; [done|]). repeat split; [by apply Hok2|by apply Hok3|by apply Hok4].
Qed.

Lemma task_calls_other (task task' : Py.str) (calls : list LlmCall) :
  task <> task' -> task_calls task' calls -> no_call_for task calls.
Proof.
  intros Hne H. unfold task_calls, no_call_for in *.
  eapply Forall_impl; [exact H|]. intros c -> [= Heq]. by apply Hne.
Qed.

Lemma no_call_for_app (task : Py.str) (a b : list LlmCall) :
  no_call_for task a -> no_call_for task b -> no_call_for task (a ++ b).
Proof. intros Ha Hb. apply Forall_app. by split. Qed.

(** A run of [main] from its first world to its last. *)
Lemma main_summary (args : Args) (w w0 : World)
    (vp tp : Path) (tt : Py.str) :
  VideoTranscriptAgent_run E (video_dir E) (transcript_dir E) (url args) w
  = (Ok (vp, tp, tt), w0) ->
  let paths := build_output_paths (path_stem tp) (output_dir E) in
  let res := fst (main E args w) in
  let w' := snd (main E args w) in
  exists calls_c calls_t calls_d,
    new_calls w w' = calls_c ++ calls_t ++ calls_d
    /\ llm_log w0 = llm_log w
    /\ task_calls (py "correct_transcript") calls_c
    /\ task_calls (py "translate_transcript") calls_t
    /\ task_calls (py "dialogue_conversion") calls_d
    /\ (is_Some (fs w !! op_corrected paths) -> calls_c = [])
    /\ (is_Some (fs w !! op_translated paths) -> calls_t = [])
    /\ (is_Some (fs w !! op_dialogue paths) -> calls_d = [])
    /\ (forall q txt, q <> tp -> fs w !! q = Some txt -> fs w' !! q = Some txt)
    /\ fs w' !! tp = Some tt
    /\ tp <> op_passage paths /\ tp <> op_corrected paths
    /\ tp <> op_translated paths /\ tp <> op_dialogue paths
    /\ (forall r, res = Ok r ->
          r_video_path r = vp /\ r_transcript_path r = tp /\ r_output_paths r = paths
          /\ fs w' !! op_passage paths = Some (r_passage r)
          /\ fs w' !! op_corrected paths = Some (r_corrected r)
          /\ fs w' !! op_translated paths = Some (r_translated r)
          /\ fs w' !! op_dialogue paths = Some (r_dialogue r))
    /\ (is_Some (fs w !! op_passage paths) -> is_Some (fs w !! op_corrected paths) ->
        is_Some (fs w !! op_translated paths) -> is_Some (fs w !! op_dialogue paths) ->
        w' = w0 /\ exists r, res = Ok r).
Proof.
  intros Hagent paths res w'.
  destruct (video_agent_spec _ _ _ _ _ _ Hagent) as [[name Hname] Hany].
  pose proof (Hany w) as Hw0. rewrite Hagent in Hw0. injection Hw0 as Hw0.
  assert (Hfs0 : forall q, q <> tp -> fs w0 !! q = fs w !! q).
  { intros q Hq. rewrite Hw0. simpl. by rewrite lookup_insert_ne by congruence. }
  assert (Htt0 : fs w0 !! tp = Some tt).
  { rewrite Hw0. simpl. by rewrite lookup_insert_eq. }
  assert (Hlog0 : llm_log w0 = llm_log w) by (by rewrite Hw0).
  assert (Hout : forall b, tp <> output_dir E // b).
  { intros b. rewrite Hname. apply transcript_not_output. }
  destruct (main_chain args w w0 vp tp tt Hagent)
    as (w1 & w2 & w3 & calls_c & calls_t & calls_d
        & Hs1 & Hs2 & Hs3 & Hs4 & Ht2 & Ht3 & Ht4 & Hres & Htotal).
  fold paths res w' in Hs1, Hs2, Hs3, Hs4, Hres, Htotal.
  assert (Hkeep : forall q txt, fs w0 !! q = Some txt -> fs w' !! q = Some txt).
  { intros q txt Hq. carry. }
  assert (Hsome : forall b q (wa wb : World), stage_step q b wa wb ->
                    forall p, is_Some (fs wa !! p) -> is_Some (fs wb !! p)).
  { intros b q wa wb Hs p [txt Hp]. exists txt. carry. }
  exists calls_c, calls_t, calls_d.
  split.
  { unfold new_calls. destruct Hs1 as (_ & _ & Hl1), Hs2 as (_ & _ & Hl2),
      Hs3 as (_ & _ & Hl3), Hs4 as (_ & _ & Hl4).
    rewrite Hl4, Hl3, Hl2, Hl1, Hlog0, app_nil_r, <- !app_assoc.
    by rewrite drop_app_length. }
  split; [done|]. do 3 (split; [done|]).
  split.
  { intros Hp. eapply stage_step_hit; [exact Hs2|].
    eapply Hsome; [exact Hs1|]. by rewrite Hfs0 by (symmetry; apply Hout). }
  split.
  { intros Hp. eapply stage_step_hit; [exact Hs3|].
    eapply Hsome; [exact Hs2|]. eapply Hsome; [exact Hs1|].
    by rewrite Hfs0 by (symmetry; apply Hout). }
  split.
  { intros Hp. eapply stage_step_hit; [exact Hs4|].
    eapply Hsome; [exact Hs3|]. eapply Hsome; [exact Hs2|].
    eapply Hsome; [exact Hs1|].
    by rewrite Hfs0 by (symmetry; apply Hout). }
  split.
  { intros q txt Hq Hp. apply Hkeep. by rewrite Hfs0. }
  split; [by apply Hkeep|].
  do 4 (split; [apply Hout|]).
  split.
  { intros r Hr. destruct (Hres r Hr) as (H1 & H2 & H3 & Hp & Hc & Ht & Hd).
    do 3 (split; [done|]).
    split; [carry|]. split; [carry|]. split; [carry|done]. }
  intros Hp Hc Ht Hd.
  assert (Hp0 : is_Some (fs w0 !! op_passage paths))
    by (by rewrite Hfs0 by (symmetry; apply Hout)).
  assert (Hc0 : is_Some (fs w0 !! op_corrected paths))
    by (by rewrite Hfs0 by (symmetry; apply Hout)).
  assert (Ht0 : is_Some (fs w0 !! op_translated paths))
    by (by rewrite Hfs0 by (symmetry; apply Hout)).
  assert (Hd0 : is_Some (fs w0 !! op_dialogue paths))
    by (by rewrite Hfs0 by (symmetry; apply Hout)).
  assert (H1 : w1 = w0) by (by apply Hs1). subst w1.
  assert (H2 : w2 = w0) by (by apply Hs2). subst w2.
  assert (H3 : w3 = w0) by (by apply Hs3). subst w3.
  split; [by apply Hs4|]. by apply Htotal.
Qed.

Lemma world_insert_id (w : World) (p : Path) (txt : Py.str) :
  fs w !! p = Some txt -> {| fs := <[p := txt]> (fs w); llm_log := llm_log w |} = w.
Proof. intros H. destruct w as [f l]. simpl in *. by rewrite insert_id. Qed.

(** C1: once the video agent has run, a stage whose output file exists
    when [main] starts returns the content of that file as its output,
    leaves the file as it is and, for the three stages that use the LLM,
    makes no call to the provider; with the four files present the run
    makes no call at all and returns their contents; and a second run
    after a successful one, with the same URL and any model and budget,
    succeeds, leaves the world (files and call log) exactly as it was,
    reports the same paths and returns the contents of the four files. *)
Theorem stage_output_caching (args : Args) (w w0 : World)
    (vp tp : Path) (tt : Py.str) :
  VideoTranscriptAgent_run E (video_dir E) (transcript_dir E) (url args) w
  = (Ok (vp, tp, tt), w0) ->
  let paths := build_output_paths (path_stem tp) (output_dir E) in
  let res := fst (main E args w) in
  let w' := snd (main E args w) in
  (forall txt, fs w !! op_passage paths = Some txt ->
     fs w' !! op_passage paths = Some txt
     /\ forall r, res = Ok r -> r_passage r = txt)
  /\ (forall txt, fs w !! op_corrected paths = Some txt ->
     no_call_for (py "correct_transcript") (new_calls w w')
     /\ fs w' !! op_corrected paths = Some txt
     /\ forall r, res = Ok r -> r_corrected r = txt)
  /\ (forall txt, fs w !! op_translated paths = Some txt ->
     no_call_for (py "translate_transcript") (new_calls w w')
     /\ fs w' !! op_translated paths = Some txt
     /\ forall r, res = Ok r -> r_translated r = txt)
  /\ (forall txt, fs w !! op_dialogue paths = Some txt ->
     no_call_for (py "dialogue_conversion") (new_calls w w')
     /\ fs w' !! op_dialogue paths = Some txt
     /\ forall r, res = Ok r -> r_dialogue r = txt)
  /\ (forall t1 t2 t3 t4,
        fs w !! op_passage paths = Some t1 ->
        fs w !! op_corrected paths = Some t2 ->
        fs w !! op_translated paths = Some t3 ->
        fs w !! op_dialogue paths = Some t4 ->
        main E args w
        = (Ok {| r_video_path := vp; r_transcript_path := tp; r_output_paths := paths;
                 r_passage := t1; r_corrected := t2; r_translated := t3;
                 r_dialogue := t4 |}, w0)
        /\ new_calls w w' = []
        /\ llm_log w' = llm_log w)
  /\ (forall r w1, main E args w = (Ok r, w1) ->
        forall args2, url args2 = url args ->
          exists r2,
            main E args2 w1 = (Ok r2, w1)
            /\ r_video_path r2 = r_video_path r
            /\ r_transcript_path r2 = r_transcript_path r
            /\ r_output_paths r2 = r_output_paths r
            /\ fs w1 !! op_passage paths = Some (r_passage r2)
            /\ fs w1 !! op_corrected paths = Some (r_corrected r2)
            /\ fs w1 !! op_translated paths = Some (r_translated r2)
            /\ fs w1 !! op_dialogue paths = Some (r_dialogue r2)).
Proof.
  intros Hagent paths res w'.
  destruct (main_summary args w w0 vp tp tt Hagent)
    as (calls_c & calls_t & calls_d & Hnew & Hlog0 & Hc & Ht & Hd & Hhc & Hht & Hhd
        & Hkeep & Htp & Hn1 & Hn2 & Hn3 & Hn4 & Hres & Hall).
  fold paths res w' in Hnew, Hhc, Hht, Hhd, Hkeep, Htp, Hn1, Hn2, Hn3, Hn4, Hres, Hall.
  assert (Hval : forall p txt (f : MainResult -> Py.str), p <> tp ->
            fs w !! p = Some txt ->
            (forall r, res = Ok r -> fs w' !! p = Some (f r)) ->
            fs w' !! p = Some txt /\ forall r, res = Ok r -> f r = txt).
  { intros p txt f Hp Hget Hf. pose proof (Hkeep p txt Hp Hget) as Hk.
    split; [done|]. intros r Hr. specialize (Hf r Hr). congruence. }
  split; [|split; [|split; [|split; [|split]]]].
  - intros txt Hget. apply (Hval _ _ r_passage); [congruence|done|]. intros r Hr.
    by destruct (Hres r Hr) as (_ & _ & _ & ? & _).
  - intros txt Hget. split.
    + rewrite Hnew, (Hhc (mk_is_Some _ _ Hget)).
      apply no_call_for_app; [constructor|].
      apply no_call_for_app; eapply task_calls_other; try eassumption; discriminate.
    + apply (Hval _ _ r_corrected); [congruence|done|]. intros r Hr.
      by destruct (Hres r Hr) as (_ & _ & _ & _ & ? & _).
  - intros txt Hget. split.
    + rewrite Hnew, (Hht (mk_is_Some _ _ Hget)).
      apply no_call_for_app; [eapply task_calls_other; try eassumption; discriminate|].
      apply no_call_for_app; [constructor|].
      eapply task_calls_other; try eassumption; discriminate.
    + apply (Hval _ _ r_translated); [congruence|done|]. intros r Hr.
      by destruct (Hres r Hr) as (_ & _ & _ & _ & _ & ? & _).
  - intros txt Hget. split.
    + rewrite Hnew, (Hhd (mk_is_Some _ _ Hget)).
      apply no_call_for_app; [eapply task_calls_other; try eassumption; discriminate|].
      apply no_call_for_app; [|constructor].
      eapply task_calls_other; try eassumption; discriminate.
    + apply (Hval _ _ r_dialogue); [congruence|done|]. intros r Hr.
      by destruct (Hres r Hr) as (_ & _ & _ & _ & _ & _ & ?).
  - intros t1 t2 t3 t4 H1 H2 H3 H4.
    destruct (Hall (mk_is_Some _ _ H1) (mk_is_Some _ _ H2)
                (mk_is_Some _ _ H3) (mk_is_Some _ _ H4)) as [Hw' [r Hr]].
    destruct (Hres r Hr) as (Hvp & Htpr & Hpaths & Hp1 & Hp2 & Hp3 & Hp4).
    rewrite (Hkeep _ _ (not_eq_sym Hn1) H1) in Hp1.
    rewrite (Hkeep _ _ (not_eq_sym Hn2) H2) in Hp2.
    rewrite (Hkeep _ _ (not_eq_sym Hn3) H3) in Hp3.
    rewrite (Hkeep _ _ (not_eq_sym Hn4) H4) in Hp4.
    split; [|split].
    + rewrite (surjective_pairing (main E args w)). fold res w'. rewrite Hr, Hw'.
      destruct r; simpl in *. congruence.
    + rewrite Hnew, (Hhc (mk_is_Some _ _ H2)), (Hht (mk_is_Some _ _ H3)),
        (Hhd (mk_is_Some _ _ H4)). done.
    + by rewrite Hw'.
  - intros r w1 Hrun args2 Hurl.
    assert (Hres1 : res = Ok r) by (subst res; by rewrite Hrun).
    assert (Hw1 : w' = w1) by (subst w'; by rewrite Hrun).
    destruct (Hres r Hres1) as (Hvp & Htpr & Hpaths & Hp1 & Hp2 & Hp3 & Hp4).
    rewrite Hw1 in Hp1, Hp2, Hp3, Hp4, Htp.
    destruct (video_agent_spec _ _ _ _ _ _ Hagent) as [_ Hany].
    pose proof (Hany w1) as Hagent2. rewrite (world_insert_id _ _ _ Htp) in Hagent2.
    rewrite <- Hurl in Hagent2.
    destruct (main_summary args2 w1 w1 vp tp tt Hagent2)
      as (_ & _ & _ & _ & _ & _ & _ & _ & _ & _ & _
          & _ & _ & _ & _ & _ & _ & Hres2 & Hall2).
    fold paths in Hres2, Hall2.
    destruct (Hall2 (mk_is_Some _ _ Hp1) (mk_is_Some _ _ Hp2)
                (mk_is_Some _ _ Hp3) (mk_is_Some _ _ Hp4)) as [Hw2 [r2 Hr2]].
    destruct (Hres2 r2 Hr2) as (Hvp2 & Htp2 & Hpaths2 & Hq1 & Hq2 & Hq3 & Hq4).
    rewrite Hw2 in Hq1, Hq2, Hq3, Hq4.
    exists r2. split.
    { by rewrite (surjective_pairing (main E args2 w1)), Hr2, Hw2. }
    split; [congruence|]. split; [congruence|]. split; [congruence|]. done.
Qed.

End Pipeline.

Lemma stage_output_caching_witness :
  VideoTranscriptAgent_run (demo_externals hello_world_entries)
    (video_dir (demo_externals hello_world_entries))
    (transcript_dir (demo_externals hello_world_entries))
    (url demo_args) demo_cached_world
  = (Ok (demo_video_path, demo_transcript_path, py "Hello world"),
     demo_cached_world_after_agent)
  /\ main (demo_externals hello_world_entries) demo_args demo_cached_world
     = (Ok {| r_video_path := demo_video_path;
              r_transcript_path := demo_transcript_path;
              r_output_paths :=
                build_output_paths (path_stem demo_transcript_path)
                  (output_dir (demo_externals hello_world_entries));
              r_passage := py "cached passage";
              r_corrected := py "cached correction";
              r_translated := py "cached translation";
              r_dialogue := py "cached dialogue" |},
        demo_cached_world_after_agent).
Proof.
  assert (Hagent :
    VideoTranscriptAgent_run (demo_externals hello_world_entries)
      (video_dir (demo_externals hello_world_entries))
      (transcript_dir (demo_externals hello_world_entries))
      (url demo_args) demo_cached_world
    = (Ok (demo_video_path, demo_transcript_path, py "Hello world"),
       demo_cached_world_after_agent)).
  { vm_compute. reflexivity. }
  split; [exact Hagent|].
  apply (proj1 (proj1 (proj2 (proj2 (proj2 (proj2
           (stage_output_caching (demo_externals hello_world_entries) demo_args
              demo_cached_world demo_cached_world_after_agent
              demo_video_path demo_transcript_path (py "Hello world") Hagent)))))
           (py "cached passage") (py "cached correction")
           (py "cached translation") (py "cached dialogue")
           ltac:(vm_compute; reflexivity) ltac:(vm_compute; reflexivity)
           ltac:(vm_compute; reflexivity) ltac:(vm_compute; reflexivity))).
Defined.
